(** * tanstack-ai: the unified AI contract, the OpenAI adapter and the facade

    A shallow embedding of
      - [packages/ai/src/types.ts]        (the unified data model),
      - [packages/ai-openai/src/openai-adapter.ts] (the OpenAI adapter),
      - [packages/ai/src/ai.ts]           (the [AI] facade),
      - [examples/cli/src/utils.ts]       (the helpers of the example),
    and of the behaviour that the Anthropic adapter's test file pins down
    for message translation and structured output.

    Conventions of the embedding.
      - An optional field [f?: T] is an [option T]; [None] is [undefined].
      - A provider value typed [T | null] is an [option T]; [None] is [null].
      - Token counts and lengths are integers ([Z]); sampling parameters
        and embedding coordinates are rationals ([Q]).
      - A [Promise] that resolves is [Returned]; one that rejects is [Threw].
      - An [AsyncIterable] is represented by the finite list of the items
        it yields when it is consumed to the end; the request of a
        streaming operation leaves when its first item is asked for, and a
        provider stream is the finite list of its events (a stream that
        breaks off midway is not represented).
      - Every call of the provider SDK is recorded in a log of outbound
        requests that is threaded through the adapter's operations. *)

From Stdlib Require Import String Ascii List ZArith QArith Bool Lia.
From Stdlib Require Import DecimalString.
Import ListNotations.
Close Scope Q_scope.
Open Scope list_scope.
Open Scope string_scope.

Set Implicit Arguments.

(* ================================================================== *)
(** * JavaScript idioms used by the sources *)

Module JS.

(** Truthiness of a string: only the empty string is falsy. *)
Definition truthy (s : string) : bool :=
  match s with
  | EmptyString => false
  | String _ _ => true
  end.

(** [s || d] on strings. *)
Definition or_default (s d : string) : string :=
  if truthy s then s else d.

(** [s || d] where [s] may also be [null] or [undefined]. *)
Definition opt_or_default (s : option string) (d : string) : string :=
  match s with
  | Some v => or_default v d
  | None => d
  end.

(** Truthiness of an optional string: [null], [undefined] and the empty
    string are falsy. *)
Definition opt_truthy (s : option string) : bool :=
  match s with
  | Some v => truthy v
  | None => false
  end.

(** Truthiness of an integer-valued number. *)
Definition truthy_number (z : Z) : bool := negb (Z.eqb z 0).

(** [n || 0] on an integer-valued number. *)
Definition number_or_zero (z : Z) : Z := if truthy_number z then z else 0%Z.

(** [Number.isSafeInteger(n)]: an integer that a double holds exactly,
    together with its neighbours. *)
Definition safe_integer (z : Z) : bool :=
  (Z.abs z <=? 9007199254740991)%Z.

(** [`${n}`] for an integer-valued number.  JavaScript prints the
    shortest digits that read back as the same double, and an exponent
    from 1e21 on; for a safe integer these are all its digits, which is
    what is printed here. *)
Definition number_to_string (z : Z) : string :=
  NilZero.string_of_int (Z.to_int z).

(** [xs.join(sep)]. *)
Definition join (sep : string) (xs : list string) : string :=
  String.concat sep xs.

(** Concatenation of a list of strings. *)
Definition concat_all (xs : list string) : string :=
  fold_right String.append "" xs.

End JS.

(* ================================================================== *)
(** * The unified data model ([types.ts]) *)

(** [role: "system" | "user" | "assistant"]. *)
Inductive Role : Type :=
| system
| user
| assistant.

(** The string a role is written as. *)
Definition role_name (r : Role) : string :=
  match r with
  | system => "system"
  | user => "user"
  | assistant => "assistant"
  end.

Module Message.
Record t : Type := mk
  { role : Role;
    content : string;
    name : option string }.
End Message.

Module Usage.
Record t : Type := mk
  { promptTokens : Z;
    completionTokens : Z;
    totalTokens : Z }.
End Usage.

Module ChatCompletionOptions.
Record t : Type := mk
  { model : string;
    messages : list Message.t;
    temperature : option Q;
    maxTokens : option Z;
    topP : option Q;
    frequencyPenalty : option Q;
    presencePenalty : option Q;
    stopSequences : option (list string);
    stream : option bool;
    metadata : option (list (string * string)) }.

(** [{ ...options, stream: b }]. *)
Definition with_stream (b : bool) (o : t) : t :=
  {| model := model o;
     messages := messages o;
     temperature := temperature o;
     maxTokens := maxTokens o;
     topP := topP o;
     frequencyPenalty := frequencyPenalty o;
     presencePenalty := presencePenalty o;
     stopSequences := stopSequences o;
     stream := Some b;
     metadata := metadata o |}.
End ChatCompletionOptions.

Module ChatCompletionChunk.
Record t : Type := mk
  { id : string;
    model : string;
    content : string;
    role : option string;
    finishReason : option string;
    usage : option Usage.t }.
End ChatCompletionChunk.

Module ChatCompletionResult.
Record t : Type := mk
  { id : string;
    model : string;
    content : string;
    role : Role;
    finishReason : option string;
    usage : Usage.t }.
End ChatCompletionResult.

Module TextGenerationOptions.
Record t : Type := mk
  { model : string;
    prompt : string;
    maxTokens : option Z;
    temperature : option Q;
    topP : option Q;
    frequencyPenalty : option Q;
    presencePenalty : option Q;
    stopSequences : option (list string);
    stream : option bool }.

(** [{ ...options, stream: b }]. *)
Definition with_stream (b : bool) (o : t) : t :=
  {| model := model o;
     prompt := prompt o;
     maxTokens := maxTokens o;
     temperature := temperature o;
     topP := topP o;
     frequencyPenalty := frequencyPenalty o;
     presencePenalty := presencePenalty o;
     stopSequences := stopSequences o;
     stream := Some b |}.
End TextGenerationOptions.

Module TextGenerationResult.
Record t : Type := mk
  { id : string;
    model : string;
    text : string;
    finishReason : option string;
    usage : Usage.t }.
End TextGenerationResult.

(** [style?: "bullet-points" | "paragraph" | "concise"]. *)
Inductive SummaryStyle : Type :=
| bullet_points
| paragraph
| concise.

Module SummarizationOptions.
Record t : Type := mk
  { model : string;
    text : string;
    maxLength : option Z;
    style : option SummaryStyle;
    focus : option (list string) }.
End SummarizationOptions.

Module SummarizationResult.
Record t : Type := mk
  { id : string;
    model : string;
    summary : string;
    usage : Usage.t }.
End SummarizationResult.

(** [input: string | string[]]. *)
Inductive EmbeddingInput : Type :=
| OneString (s : string)
| ManyStrings (l : list string).

(** The number of inputs supplied; a single string counts as one. *)
Definition input_count (i : EmbeddingInput) : nat :=
  match i with
  | OneString _ => 1
  | ManyStrings l => length l
  end.

Module EmbeddingOptions.
Record t : Type := mk
  { model : string;
    input : EmbeddingInput;
    dimensions : option Z }.
End EmbeddingOptions.

Module EmbeddingUsage.
Record t : Type := mk
  { promptTokens : Z;
    totalTokens : Z }.
End EmbeddingUsage.

Module EmbeddingResult.
Record t : Type := mk
  { id : string;
    model : string;
    embeddings : list (list Q);
    usage : EmbeddingUsage.t }.
End EmbeddingResult.

(* ================================================================== *)
(** * Effects: the log of outbound requests, and failure *)

(** How an asynchronous operation ends. *)
Inductive Outcome (E A : Type) : Type :=
| Returned (a : A)
| Threw (e : E).

Arguments Returned {E A} a.
Arguments Threw {E A} e.

(** An operation that may issue requests of type [R]: it extends the log
    of requests issued so far and ends with an outcome. *)
Definition Eff (R E A : Type) : Type := list R -> list R * Outcome E A.

Definition ret {R E A : Type} (a : A) : Eff R E A :=
  fun log => (log, Returned a).

Definition throw {R E A : Type} (e : E) : Eff R E A :=
  fun log => (log, Threw e).

Definition bind {R E A B : Type} (m : Eff R E A) (k : A -> Eff R E B)
  : Eff R E B :=
  fun log =>
    match m log with
    | (log', Returned a) => k a log'
    | (log', Threw e) => (log', Threw e)
    end.

(** One outbound request [r], answered by [reply]. *)
Definition request {R E A : Type} (r : R) (reply : E + A) : Eff R E A :=
  fun log =>
    ((log ++ [r])%list,
     match reply with
     | inl e => Threw e
     | inr a => Returned a
     end).

Declare Scope eff_scope.
Delimit Scope eff_scope with eff.
Notation "x <- m ;; k" := (bind m (fun x => k))
  (at level 100, m at next level, right associativity) : eff_scope.

(** The requests an operation issues when started on an empty log. *)
Definition requests_of {R E A : Type} (m : Eff R E A) : list R := fst (m []).

(** The outcome of an operation started on an empty log. *)
Definition outcome_of {R E A : Type} (m : Eff R E A) : Outcome E A :=
  snd (m []).

(* ================================================================== *)
(** * The OpenAI SDK as the adapter sees it *)

Module OpenAI.

(** One element of [messages] in a chat request. *)
Module MessageParam.
Record t : Type := mk
  { role : Role;
    content : string;
    name : option string }.
End MessageParam.

(** The argument of [client.chat.completions.create]. *)
Module ChatParams.
Record t : Type := mk
  { model : string;
    messages : list MessageParam.t;
    temperature : option Q;
    max_tokens : option Z;
    top_p : option Q;
    frequency_penalty : option Q;
    presence_penalty : option Q;
    stop : option (list string);
    stream : bool }.
End ChatParams.

(** The argument of [client.completions.create]. *)
Module CompletionParams.
Record t : Type := mk
  { model : string;
    prompt : string;
    max_tokens : option Z;
    temperature : option Q;
    top_p : option Q;
    frequency_penalty : option Q;
    presence_penalty : option Q;
    stop : option (list string);
    stream : bool }.
End CompletionParams.

(** The argument of [client.embeddings.create]. *)
Module EmbeddingParams.
Record t : Type := mk
  { model : string;
    input : EmbeddingInput;
    dimensions : option Z }.
End EmbeddingParams.

(** [response.usage] of a completion. *)
Module CompletionUsage.
Record t : Type := mk
  { prompt_tokens : Z;
    completion_tokens : Z;
    total_tokens : Z }.
End CompletionUsage.

(** One element of [response.choices] of a chat completion;
    [message_content] is [choice.message.content]. *)
Module ChatChoice.
Record t : Type := mk
  { message_content : option string;
    finish_reason : option string }.
End ChatChoice.

(** The resolved value of a chat request with [stream: false]. *)
Module ChatCompletion.
Record t : Type := mk
  { id : string;
    model : string;
    choices : list ChatChoice.t;
    usage : option CompletionUsage.t }.
End ChatCompletion.

(** [choice.delta] of a streamed chat event. *)
Module Delta.
Record t : Type := mk
  { content : option string;
    role : option string }.
End Delta.

(** One element of [chunk.choices] of a streamed chat event. *)
Module ChunkChoice.
Record t : Type := mk
  { delta : option Delta.t;
    finish_reason : option string }.
End ChunkChoice.

(** One event of a chat request with [stream: true]. *)
Module ChatChunk.
Record t : Type := mk
  { id : string;
    model : string;
    choices : list ChunkChoice.t;
    usage : option CompletionUsage.t }.
End ChatChunk.

(** One element of [response.choices] of a text completion, and of the
    events of a streamed one. *)
Module TextChoice.
Record t : Type := mk
  { text : string;
    finish_reason : option string }.
End TextChoice.

(** The resolved value of a text completion request, and the shape of
    each event of a streamed one. *)
Module Completion.
Record t : Type := mk
  { id : string;
    model : string;
    choices : list TextChoice.t;
    usage : option CompletionUsage.t }.
End Completion.

(** One element of [response.data] of an embedding response. *)
Module Embedding.
Record t : Type := mk
  { embedding : list Q;
    index : Z }.
End Embedding.

Module EmbeddingResponseUsage.
Record t : Type := mk
  { prompt_tokens : Z;
    total_tokens : Z }.
End EmbeddingResponseUsage.

(** The resolved value of [client.embeddings.create]. *)
Module CreateEmbeddingResponse.
Record t : Type := mk
  { data : list Embedding.t;
    model : string;
    usage : EmbeddingResponseUsage.t }.
End CreateEmbeddingResponse.

(** An outbound request, as recorded in the log. *)
Inductive Request : Type :=
| ChatRequest (p : ChatParams.t)
| CompletionRequest (p : CompletionParams.t)
| EmbeddingRequest (p : EmbeddingParams.t).

(** Why an operation of the adapter rejects: the SDK's own failure,
    passed on as it is, or the [TypeError] of reading a property of
    [undefined]. *)
Inductive Error : Type :=
| ProviderError (e : string)
| TypeError (what : string).

(** The provider behind the SDK: what each [create] call resolves to.
    The SDK's [create] is overloaded on [stream]; the streamed and the
    plain answers are kept apart here, and a stream is the list of its
    events. *)
Record Client : Type := mkClient
  { chat_create : ChatParams.t -> Error + ChatCompletion.t;
    chat_create_stream : ChatParams.t -> Error + list ChatChunk.t;
    completions_create : CompletionParams.t -> Error + Completion.t;
    completions_create_stream :
      CompletionParams.t -> Error + list Completion.t;
    embeddings_create :
      EmbeddingParams.t -> Error + CreateEmbeddingResponse.t }.

End OpenAI.

(* ================================================================== *)
(** * The OpenAI adapter ([openai-adapter.ts]) *)

Module OpenAIAdapter.
Import OpenAI.
Local Open Scope eff_scope.

(** The adapter instance: its SDK client, and the identifier that
    [BaseAdapter.generateId] hands out ([BaseAdapter] is not among the
    sources, so the identifier is a field of the instance). *)
Record t : Type := mk
  { client : Client;
    generateId : string }.

Definition name : string := "openai".

Definition M (A : Type) : Type := Eff Request Error A.

(** [usage: { promptTokens: response.usage?.prompt_tokens || 0, ... }]. *)
Definition usage_of (u : option CompletionUsage.t) : Usage.t :=
  match u with
  | Some u =>
      {| Usage.promptTokens :=
           JS.number_or_zero (CompletionUsage.prompt_tokens u);
         Usage.completionTokens :=
           JS.number_or_zero (CompletionUsage.completion_tokens u);
         Usage.totalTokens :=
           JS.number_or_zero (CompletionUsage.total_tokens u) |}
  | None =>
      {| Usage.promptTokens := 0;
         Usage.completionTokens := 0;
         Usage.totalTokens := 0 |}
  end.

(** [(msg) => ({ role: msg.role, content: msg.content, name: msg.name })]. *)
Definition message_param (msg : Message.t) : MessageParam.t :=
  {| MessageParam.role := Message.role msg;
     MessageParam.content := Message.content msg;
     MessageParam.name := Message.name msg |}.

(** The payload of both chat operations; they differ in [stream]. *)
Definition chat_params (options : ChatCompletionOptions.t) (stream : bool)
  : ChatParams.t :=
  {| ChatParams.model :=
       JS.or_default (ChatCompletionOptions.model options) "gpt-3.5-turbo";
     ChatParams.messages :=
       map message_param (ChatCompletionOptions.messages options);
     ChatParams.temperature := ChatCompletionOptions.temperature options;
     ChatParams.max_tokens := ChatCompletionOptions.maxTokens options;
     ChatParams.top_p := ChatCompletionOptions.topP options;
     ChatParams.frequency_penalty :=
       ChatCompletionOptions.frequencyPenalty options;
     ChatParams.presence_penalty :=
       ChatCompletionOptions.presencePenalty options;
     ChatParams.stop := ChatCompletionOptions.stopSequences options;
     ChatParams.stream := stream |}.

(** The result built from a response's first choice. *)
Definition chat_result (response : ChatCompletion.t)
  (choice : ChatChoice.t) : ChatCompletionResult.t :=
  {| ChatCompletionResult.id := ChatCompletion.id response;
     ChatCompletionResult.model := ChatCompletion.model response;
     ChatCompletionResult.content :=
       JS.opt_or_default (ChatChoice.message_content choice) "";
     ChatCompletionResult.role := assistant;
     ChatCompletionResult.finishReason := ChatChoice.finish_reason choice;
     ChatCompletionResult.usage := usage_of (ChatCompletion.usage response) |}.

Definition chatCompletion (self : t)
  (options : ChatCompletionOptions.t) : M ChatCompletionResult.t :=
  let p := chat_params options false in
  response <- request (ChatRequest p) (chat_create (client self) p) ;;
  match ChatCompletion.choices response with
  | choice :: _ => ret (chat_result response choice)
  | [] => throw (TypeError "choice.message")
  end.

(** [chunk.choices[0]?.delta]. *)
Definition first_delta (chunk : ChatChunk.t) : option Delta.t :=
  match ChatChunk.choices chunk with
  | c :: _ => ChunkChoice.delta c
  | [] => None
  end.

(** [chunk.choices[0]?.finish_reason]. *)
Definition first_finish_reason (chunk : ChatChunk.t) : option string :=
  match ChatChunk.choices chunk with
  | c :: _ => ChunkChoice.finish_reason c
  | [] => None
  end.

(** [delta?.content], as far as its truthiness and its value when it is
    truthy go. *)
Definition delta_content (chunk : ChatChunk.t) : option string :=
  match first_delta chunk with
  | Some d => Delta.content d
  | None => None
  end.

(** One turn of the [for await] loop of [chatCompletionStream]: what
    the event [chunk] makes the generator yield. *)
Definition chat_stream_step (chunk : ChatChunk.t)
  : list ChatCompletionChunk.t :=
  match first_delta chunk with
  | Some delta =>
      match Delta.content delta with
      | Some content =>
          if JS.truthy content then
            [ {| ChatCompletionChunk.id := ChatChunk.id chunk;
                 ChatCompletionChunk.model := ChatChunk.model chunk;
                 ChatCompletionChunk.content := content;
                 ChatCompletionChunk.role := Delta.role delta;
                 ChatCompletionChunk.finishReason :=
                   first_finish_reason chunk;
                 ChatCompletionChunk.usage := None |} ]
          else []
      | None => []
      end
  | None => []
  end.

(** The whole [for await] loop. *)
Fixpoint chat_stream_loop (stream : list ChatChunk.t)
  : list ChatCompletionChunk.t :=
  match stream with
  | [] => []
  | chunk :: rest => (chat_stream_step chunk ++ chat_stream_loop rest)%list
  end.

Definition chatCompletionStream (self : t)
  (options : ChatCompletionOptions.t) : M (list ChatCompletionChunk.t) :=
  let p := chat_params options true in
  stream <- request (ChatRequest p) (chat_create_stream (client self) p) ;;
  ret (chat_stream_loop stream).

(** The payload of both text operations; they differ in [stream]. *)
Definition completion_params (options : TextGenerationOptions.t)
  (stream : bool) : CompletionParams.t :=
  {| CompletionParams.model :=
       JS.or_default (TextGenerationOptions.model options)
         "gpt-3.5-turbo-instruct";
     CompletionParams.prompt := TextGenerationOptions.prompt options;
     CompletionParams.max_tokens := TextGenerationOptions.maxTokens options;
     CompletionParams.temperature :=
       TextGenerationOptions.temperature options;
     CompletionParams.top_p := TextGenerationOptions.topP options;
     CompletionParams.frequency_penalty :=
       TextGenerationOptions.frequencyPenalty options;
     CompletionParams.presence_penalty :=
       TextGenerationOptions.presencePenalty options;
     CompletionParams.stop := TextGenerationOptions.stopSequences options;
     CompletionParams.stream := stream |}.

Definition generateText (self : t)
  (options : TextGenerationOptions.t) : M TextGenerationResult.t :=
  let p := completion_params options false in
  response <-
    request (CompletionRequest p) (completions_create (client self) p) ;;
  match Completion.choices response with
  | choice :: _ =>
      ret {| TextGenerationResult.id := Completion.id response;
             TextGenerationResult.model := Completion.model response;
             TextGenerationResult.text := TextChoice.text choice;
             TextGenerationResult.finishReason :=
               TextChoice.finish_reason choice;
             TextGenerationResult.usage :=
               usage_of (Completion.usage response) |}
  | [] => throw (TypeError "choice.text")
  end.

(** One turn of the [for await] loop of [generateTextStream]. *)
Definition text_stream_step (chunk : Completion.t) : list string :=
  match Completion.choices chunk with
  | c :: _ => if JS.truthy (TextChoice.text c) then [TextChoice.text c] else []
  | [] => []
  end.

Fixpoint text_stream_loop (stream : list Completion.t) : list string :=
  match stream with
  | [] => []
  | chunk :: rest => (text_stream_step chunk ++ text_stream_loop rest)%list
  end.

Definition generateTextStream (self : t)
  (options : TextGenerationOptions.t) : M (list string) :=
  let p := completion_params options true in
  stream <-
    request (CompletionRequest p)
      (completions_create_stream (client self) p) ;;
  ret (text_stream_loop stream).

(** [buildSummarizationPrompt]: the sentence chosen by [options.style]. *)
Definition style_sentence (style : option SummaryStyle) : string :=
  match style with
  | Some bullet_points => "Provide a summary in bullet point format. "
  | Some paragraph => "Provide a summary in paragraph format. "
  | Some concise => "Provide a very concise summary in 1-2 sentences. "
  | None => "Provide a clear and concise summary. "
  end.

(** [if (options.focus && options.focus.length > 0)]. *)
Definition focus_sentence (focus : option (list string)) : string :=
  match focus with
  | Some ((_ :: _) as aspects) =>
      "Focus on the following aspects: " ++ JS.join ", " aspects ++ ". "
  | _ => ""
  end.

(** [if (options.maxLength)]. *)
Definition length_sentence (maxLength : option Z) : string :=
  match maxLength with
  | Some n =>
      if JS.truthy_number n then
        "Keep the summary under " ++ JS.number_to_string n ++ " tokens. "
      else ""
  | None => ""
  end.

Definition buildSummarizationPrompt (options : SummarizationOptions.t)
  : string :=
  let prompt := "You are a professional summarizer. " in
  let prompt := prompt ++ style_sentence (SummarizationOptions.style options) in
  let prompt := prompt ++ focus_sentence (SummarizationOptions.focus options) in
  let prompt :=
    prompt ++ length_sentence (SummarizationOptions.maxLength options) in
  prompt.

(** The payload of [summarize]; the fields it does not set are
    [undefined]. *)
Definition summarize_params (options : SummarizationOptions.t)
  : ChatParams.t :=
  let systemPrompt := buildSummarizationPrompt options in
  {| ChatParams.model :=
       JS.or_default (SummarizationOptions.model options) "gpt-3.5-turbo";
     ChatParams.messages :=
       [ {| MessageParam.role := system;
            MessageParam.content := systemPrompt;
            MessageParam.name := None |};
         {| MessageParam.role := user;
            MessageParam.content := SummarizationOptions.text options;
            MessageParam.name := None |} ];
     ChatParams.temperature := Some (3 # 10)%Q;
     ChatParams.max_tokens := SummarizationOptions.maxLength options;
     ChatParams.top_p := None;
     ChatParams.frequency_penalty := None;
     ChatParams.presence_penalty := None;
     ChatParams.stop := None;
     ChatParams.stream := false |}.

Definition summarize (self : t)
  (options : SummarizationOptions.t) : M SummarizationResult.t :=
  let p := summarize_params options in
  response <- request (ChatRequest p) (chat_create (client self) p) ;;
  match ChatCompletion.choices response with
  | choice :: _ =>
      ret {| SummarizationResult.id := ChatCompletion.id response;
             SummarizationResult.model := ChatCompletion.model response;
             SummarizationResult.summary :=
               JS.opt_or_default (ChatChoice.message_content choice) "";
             SummarizationResult.usage :=
               usage_of (ChatCompletion.usage response) |}
  | [] => throw (TypeError "response.choices[0].message")
  end.

Definition embedding_params (options : EmbeddingOptions.t)
  : EmbeddingParams.t :=
  {| EmbeddingParams.model :=
       JS.or_default (EmbeddingOptions.model options)
         "text-embedding-ada-002";
     EmbeddingParams.input := EmbeddingOptions.input options;
     EmbeddingParams.dimensions := EmbeddingOptions.dimensions options |}.

Definition createEmbeddings (self : t)
  (options : EmbeddingOptions.t) : M EmbeddingResult.t :=
  let p := embedding_params options in
  response <-
    request (EmbeddingRequest p) (embeddings_create (client self) p) ;;
  ret {| EmbeddingResult.id := generateId self;
         EmbeddingResult.model := CreateEmbeddingResponse.model response;
         EmbeddingResult.embeddings :=
           map Embedding.embedding (CreateEmbeddingResponse.data response);
         EmbeddingResult.usage :=
           {| EmbeddingUsage.promptTokens :=
                EmbeddingResponseUsage.prompt_tokens
                  (CreateEmbeddingResponse.usage response);
              EmbeddingUsage.totalTokens :=
                EmbeddingResponseUsage.total_tokens
                  (CreateEmbeddingResponse.usage response) |} |}.

End OpenAIAdapter.

(* ================================================================== *)
(** * The adapter interface ([AIAdapter] in [types.ts]) *)

Module AIAdapter.
(** [F A] is what a method hands back for a result of type [A]: a
    promise of it, or, for the streaming methods, an asynchronous
    iterable whose items are collected in a list. *)
Record t (F : Type -> Type) : Type := mk
  { name : string;
    chatCompletion : ChatCompletionOptions.t -> F ChatCompletionResult.t;
    chatCompletionStream :
      ChatCompletionOptions.t -> F (list ChatCompletionChunk.t);
    generateText : TextGenerationOptions.t -> F TextGenerationResult.t;
    generateTextStream : TextGenerationOptions.t -> F (list string);
    summarize : SummarizationOptions.t -> F SummarizationResult.t;
    createEmbeddings : EmbeddingOptions.t -> F EmbeddingResult.t }.
End AIAdapter.

(** [OpenAIAdapter] implements the interface. *)
Definition openai_adapter (self : OpenAIAdapter.t)
  : AIAdapter.t OpenAIAdapter.M :=
  {| AIAdapter.name := OpenAIAdapter.name;
     AIAdapter.chatCompletion := OpenAIAdapter.chatCompletion self;
     AIAdapter.chatCompletionStream := OpenAIAdapter.chatCompletionStream self;
     AIAdapter.generateText := OpenAIAdapter.generateText self;
     AIAdapter.generateTextStream := OpenAIAdapter.generateTextStream self;
     AIAdapter.summarize := OpenAIAdapter.summarize self;
     AIAdapter.createEmbeddings := OpenAIAdapter.createEmbeddings self |}.

(* ================================================================== *)
(** * The facade ([ai.ts]) *)

Module AI.
Section Facade.
Variable F : Type -> Type.

(** The only state of the facade is the adapter it is bound to. *)
Record t : Type := new { adapter : AIAdapter.t F }.

Definition adapterName (self : t) : string :=
  AIAdapter.name (adapter self).

Definition chat (self : t) (options : ChatCompletionOptions.t)
  : F ChatCompletionResult.t :=
  AIAdapter.chatCompletion (adapter self) options.

Definition chatStream (self : t) (options : ChatCompletionOptions.t)
  : F (list ChatCompletionChunk.t) :=
  AIAdapter.chatCompletionStream (adapter self)
    (ChatCompletionOptions.with_stream true options).

Definition generateText (self : t) (options : TextGenerationOptions.t)
  : F TextGenerationResult.t :=
  AIAdapter.generateText (adapter self) options.

Definition generateTextStream (self : t)
  (options : TextGenerationOptions.t) : F (list string) :=
  AIAdapter.generateTextStream (adapter self)
    (TextGenerationOptions.with_stream true options).

Definition summarize (self : t) (options : SummarizationOptions.t)
  : F SummarizationResult.t :=
  AIAdapter.summarize (adapter self) options.

Definition embed (self : t) (options : EmbeddingOptions.t)
  : F EmbeddingResult.t :=
  AIAdapter.createEmbeddings (adapter self) options.

Definition setAdapter (self : t) (a : AIAdapter.t F) : t :=
  {| adapter := a |}.
End Facade.
End AI.

(* ================================================================== *)
(** * JSON values, [JSON.parse] and [JSON.stringify]

    The two built-ins are modelled on byte strings (UTF-8).  A number is
    kept as a decimal [m * 10^e], normalised; it is printed in positional
    notation (JavaScript switches to exponent notation beyond 1e21 and
    below 1e-6, and rounds to a double).  An object is the list of its
    members in property order (JavaScript moves keys that are array
    indices to the front). *)

Module JSON.

#[warnings="-register-all"] Inductive value : Type :=
| Null
| Bool (b : bool)
| Number (m e : Z)
| Str (s : string)
| Array (items : list value)
| Object (members : list (string * value)).

Definition code (c : ascii) : Z := Z.of_N (N_of_ascii c).
Definition char (z : Z) : ascii := ascii_of_N (Z.to_N z).

Definition dquote : ascii := char 34.
Definition backslash : ascii := char 92.

(** [s] with every apostrophe replaced by a double quote: a way to
    write down texts that contain double quotes. *)
Fixpoint dq (s : string) : string :=
  match s with
  | EmptyString => EmptyString
  | String c rest =>
      String (if Ascii.eqb c (char 39) then dquote else c) (dq rest)
  end.

(** ** Numbers *)

(** Trailing zeros of the mantissa are traded for the exponent. *)
Fixpoint strip_zeros (fuel : nat) (m e : Z) : Z * Z :=
  match fuel with
  | O => (m, e)
  | S fuel =>
      if ((e <? 0) && (m mod 10 =? 0))%Z
      then strip_zeros fuel (m / 10)%Z (e + 1)%Z
      else (m, e)
  end.

Definition normalize (m e : Z) : Z * Z :=
  if (m =? 0)%Z then (0, 0)%Z
  else if (0 <=? e)%Z then (m * 10 ^ e, 0)%Z
  else strip_zeros (Z.to_nat (- e)) m e.

Definition number (m e : Z) : value :=
  let (m', e') := normalize m e in Number m' e'.

Definition integer (z : Z) : value := Number z 0.

(** ** Parsing *)

Definition is_ws (c : ascii) : bool :=
  let n := code c in
  ((n =? 32) || (n =? 9) || (n =? 10) || (n =? 13))%Z.

Fixpoint skip_ws (s : list ascii) : list ascii :=
  match s with
  | c :: rest => if is_ws c then skip_ws rest else s
  | [] => []
  end.

Definition digit (c : ascii) : option Z :=
  let n := code c in
  if ((48 <=? n) && (n <=? 57))%Z then Some (n - 48)%Z else None.

Definition hex_digit (c : ascii) : option Z :=
  let n := code c in
  if ((48 <=? n) && (n <=? 57))%Z then Some (n - 48)%Z
  else if ((65 <=? n) && (n <=? 70))%Z then Some (n - 55)%Z
  else if ((97 <=? n) && (n <=? 102))%Z then Some (n - 87)%Z
  else None.

(** The longest prefix of digits: its value, its length, and the rest. *)
Fixpoint digits (s : list ascii) (acc : Z) (len : Z)
  : Z * Z * list ascii :=
  match s with
  | c :: rest =>
      match digit c with
      | Some d => digits rest (acc * 10 + d)%Z (len + 1)%Z
      | None => (acc, len, s)
      end
  | [] => (acc, len, [])
  end.

(** [int], without leading zeros. *)
Definition parse_int (s : list ascii) : option (Z * list ascii) :=
  match s with
  | c :: rest =>
      match digit c with
      | Some 0%Z => Some (0%Z, rest)
      | Some _ => let '(n, _, rest') := digits s 0 0 in Some (n, rest')
      | None => None
      end
  | [] => None
  end.

(** [frac]: the mantissa extended by the fraction digits, and their
    number. *)
Definition parse_frac (m : Z) (s : list ascii)
  : option (Z * Z * list ascii) :=
  match s with
  | c :: rest =>
      if (code c =? 46)%Z then
        let '(m', len, rest') := digits rest m 0 in
        if (len =? 0)%Z then None else Some (m', len, rest')
      else Some (m, 0%Z, s)
  | [] => Some (m, 0%Z, [])
  end.

(** [exp]. *)
Definition parse_exp (s : list ascii) : option (Z * list ascii) :=
  match s with
  | c :: rest =>
      if ((code c =? 101) || (code c =? 69))%Z then
        let '(neg, rest1) :=
          match rest with
          | sign :: rest1 =>
              if (code sign =? 45)%Z then (true, rest1)
              else if (code sign =? 43)%Z then (false, rest1)
              else (false, rest)
          | [] => (false, rest)
          end in
        let '(x, len, rest2) := digits rest1 0 0 in
        if (len =? 0)%Z then None
        else Some (if neg then (- x)%Z else x, rest2)
      else Some (0%Z, s)
  | [] => Some (0%Z, [])
  end.

Definition parse_number (s : list ascii) : option (value * list ascii) :=
  let '(neg, s1) :=
    match s with
    | c :: rest => if (code c =? 45)%Z then (true, rest) else (false, s)
    | [] => (false, s)
    end in
  match parse_int s1 with
  | Some (i, s2) =>
      match parse_frac i s2 with
      | Some (m, flen, s3) =>
          match parse_exp s3 with
          | Some (x, s4) =>
              Some (number (if neg then (- m)%Z else m) (x - flen)%Z, s4)
          | None => None
          end
      | None => None
      end
  | None => None
  end.

(** ** Strings *)

(** What a string literal is made of: a byte written as it is, or a
    UTF-16 code unit written as [\uXXXX]. *)
Inductive unit16 : Type :=
| Byte (c : ascii)
| Escaped (u : Z).

(** The UTF-8 bytes of a code point. *)
Definition utf8 (cp : Z) : list ascii :=
  if (cp <? 128)%Z then [char cp]
  else if (cp <? 2048)%Z then
    [char (192 + cp / 64); char (128 + cp mod 64)]%Z
  else if (cp <? 65536)%Z then
    [char (224 + cp / 4096); char (128 + (cp / 64) mod 64);
     char (128 + cp mod 64)]%Z
  else
    [char (240 + cp / 262144); char (128 + (cp / 4096) mod 64);
     char (128 + (cp / 64) mod 64); char (128 + cp mod 64)]%Z.

Definition is_high (u : Z) : bool := ((55296 <=? u) && (u <=? 56319))%Z.
Definition is_low (u : Z) : bool := ((56320 <=? u) && (u <=? 57343))%Z.

(** Surrogate pairs are joined; a lone surrogate is encoded as it is. *)
Fixpoint encode (us : list unit16) : list ascii :=
  match us with
  | [] => []
  | Byte c :: rest => c :: encode rest
  | Escaped hi :: rest =>
      match rest with
      | Escaped lo :: rest' =>
          if is_high hi && is_low lo
          then (utf8 (65536 + (hi - 55296) * 1024 + (lo - 56320)) ++
                encode rest')%list
          else (utf8 hi ++ encode rest)%list
      | _ => (utf8 hi ++ encode rest)%list
      end
  end.

(** The character an escape letter stands for. *)
Definition escape (c : ascii) : option ascii :=
  let n := code c in
  if (n =? 34)%Z then Some dquote
  else if (n =? 92)%Z then Some backslash
  else if (n =? 47)%Z then Some (char 47)
  else if (n =? 98)%Z then Some (char 8)
  else if (n =? 102)%Z then Some (char 12)
  else if (n =? 110)%Z then Some (char 10)
  else if (n =? 114)%Z then Some (char 13)
  else if (n =? 116)%Z then Some (char 9)
  else None.

(** The body of a string literal, after its opening quote, up to and
    including its closing quote. *)
Fixpoint parse_chars (s : list ascii) (acc : list unit16)
  : option (list unit16 * list ascii) :=
  match s with
  | [] => None
  | c :: rest =>
      if (code c =? 34)%Z then Some (rev acc, rest)
      else if (code c =? 92)%Z then
        match rest with
        | e :: rest1 =>
            if (code e =? 117)%Z then
              match rest1 with
              | a :: b :: c' :: d :: rest2 =>
                  match hex_digit a, hex_digit b, hex_digit c', hex_digit d
                  with
                  | Some a, Some b, Some c', Some d =>
                      parse_chars rest2
                        (Escaped (a * 4096 + b * 256 + c' * 16 + d)%Z :: acc)
                  | _, _, _, _ => None
                  end
              | _ => None
              end
            else
              match escape e with
              | Some x => parse_chars rest1 (Byte x :: acc)
              | None => None
              end
        | [] => None
        end
      else if (code c <? 32)%Z then None
      else parse_chars rest (Byte c :: acc)
  end.

Definition parse_string (s : list ascii) : option (string * list ascii) :=
  match parse_chars s [] with
  | Some (us, rest) => Some (string_of_list_ascii (encode us), rest)
  | None => None
  end.

(** ** Values *)

(** [s] without the prefix [lit], when it starts with it. *)
Fixpoint strip_prefix (lit s : list ascii) : option (list ascii) :=
  match lit, s with
  | [], _ => Some s
  | l :: lit', c :: s' => if Ascii.eqb l c then strip_prefix lit' s' else None
  | _ :: _, [] => None
  end.

Definition parse_literal (lit : string) (v : value) (s : list ascii)
  : option (value * list ascii) :=
  match strip_prefix (list_ascii_of_string lit) s with
  | Some rest => Some (v, rest)
  | None => None
  end.

(** A repeated key keeps its place and takes the later value. *)
Fixpoint set_member (k : string) (v : value)
  (members : list (string * value)) : list (string * value) :=
  match members with
  | [] => [(k, v)]
  | (k', v') :: rest =>
      if String.eqb k k' then (k, v) :: rest
      else (k', v') :: set_member k v rest
  end.

Fixpoint parse_value (fuel : nat) (s : list ascii)
  : option (value * list ascii) :=
  match fuel with
  | O => None
  | S fuel =>
      match skip_ws s with
      | [] => None
      | c :: rest =>
          let n := code c in
          if (n =? 123)%Z then
            match skip_ws rest with
            | c' :: rest' =>
                if (code c' =? 125)%Z then Some (Object [], rest')
                else parse_members fuel rest []
            | [] => None
            end
          else if (n =? 91)%Z then
            match skip_ws rest with
            | c' :: rest' =>
                if (code c' =? 93)%Z then Some (Array [], rest')
                else parse_elements fuel rest []
            | [] => None
            end
          else if (n =? 34)%Z then
            match parse_string rest with
            | Some (str, rest') => Some (Str str, rest')
            | None => None
            end
          else if (n =? 110)%Z then parse_literal "null" Null (c :: rest)
          else if (n =? 116)%Z then parse_literal "true" (Bool true) (c :: rest)
          else if (n =? 102)%Z then
            parse_literal "false" (Bool false) (c :: rest)
          else parse_number (c :: rest)
      end
  end
with parse_elements (fuel : nat) (s : list ascii) (acc : list value)
  : option (value * list ascii) :=
  match fuel with
  | O => None
  | S fuel =>
      match parse_value fuel s with
      | Some (v, rest) =>
          match skip_ws rest with
          | c :: rest' =>
              if (code c =? 44)%Z then parse_elements fuel rest' (v :: acc)
              else if (code c =? 93)%Z
              then Some (Array (rev (v :: acc)), rest')
              else None
          | [] => None
          end
      | None => None
      end
  end
with parse_members (fuel : nat) (s : list ascii)
  (acc : list (string * value)) : option (value * list ascii) :=
  match fuel with
  | O => None
  | S fuel =>
      match skip_ws s with
      | q :: rest =>
          if (code q =? 34)%Z then
            match parse_string rest with
            | Some (k, rest1) =>
                match skip_ws rest1 with
                | colon :: rest2 =>
                    if (code colon =? 58)%Z then
                      match parse_value fuel rest2 with
                      | Some (v, rest3) =>
                          match skip_ws rest3 with
                          | c :: rest4 =>
                              if (code c =? 44)%Z
                              then parse_members fuel rest4
                                     (set_member k v acc)
                              else if (code c =? 125)%Z
                              then Some (Object (set_member k v acc), rest4)
                              else None
                          | [] => None
                          end
                      | None => None
                      end
                    else None
                | [] => None
                end
            | None => None
            end
          else None
      | [] => None
      end
  end.

(** [JSON.parse(text)]; [None] when it throws a [SyntaxError]. *)
Definition parse (text : string) : option value :=
  let s := list_ascii_of_string text in
  match parse_value (2 * length s + 2) s with
  | Some (v, rest) =>
      match skip_ws rest with
      | [] => Some v
      | _ :: _ => None
      end
  | None => None
  end.

(** ** Printing *)

Definition hex (d : Z) : ascii :=
  if (d <? 10)%Z then char (48 + d) else char (87 + d).

Definition quote_char (c : ascii) : list ascii :=
  let n := code c in
  if (n =? 34)%Z then [backslash; dquote]
  else if (n =? 92)%Z then [backslash; backslash]
  else if (n =? 8)%Z then [backslash; char 98]
  else if (n =? 12)%Z then [backslash; char 102]
  else if (n =? 10)%Z then [backslash; char 110]
  else if (n =? 13)%Z then [backslash; char 114]
  else if (n =? 9)%Z then [backslash; char 116]
  else if (n <? 32)%Z then
    [backslash; char 117; char 48; char 48; hex (n / 16); hex (n mod 16)]
  else [c].

Definition quote (s : string) : string :=
  string_of_list_ascii
    (dquote :: flat_map quote_char (list_ascii_of_string s) ++ [dquote])%list.

Definition zeros (n : nat) : string :=
  string_of_list_ascii (repeat (char 48) n).

(** A normalised decimal in positional notation. *)
Definition print_number (m e : Z) : string :=
  if (0 <=? e)%Z then JS.number_to_string (m * 10 ^ e)
  else
    let ds := JS.number_to_string (Z.abs m) in
    let k := Z.to_nat (- e) in
    let sign := if (m <? 0)%Z then "-" else "" in
    let len := String.length ds in
    if (len <=? k)%nat
    then sign ++ "0." ++ zeros (k - len) ++ ds
    else sign ++ substring 0 (len - k) ds ++ "." ++ substring (len - k) k ds.

(** [JSON.stringify(v)]. *)
Fixpoint stringify (v : value) : string :=
  match v with
  | Null => "null"
  | Bool true => "true"
  | Bool false => "false"
  | Number m e => print_number m e
  | Str s => quote s
  | Array items => "[" ++ JS.join "," (map stringify items) ++ "]"
  | Object members =>
      "{" ++
      JS.join ","
        (map (fun '(k, x) => quote k ++ ":" ++ stringify x) members) ++
      "}"
  end.

End JSON.


(* ================================================================== *)
(** * Tool-bearing conversations and the Anthropic adapter

    The Anthropic adapter, and the message type with tool calls that its
    test file feeds to it, are not among the sources; the test file is.
    The definitions of this module follow the specification (sections 3,
    4.2 and 4.4), with the literals of the test file where it asserts
    them.  Where the specification does not say what happens, the model
    answers [None]. *)

Module Anthropic.

(** Modelled from the spec: the roles of a message of section 3,
    [system | user | assistant | tool]; the declaration is missing. *)
Inductive Role : Type :=
| system
| user
| assistant
| tool.

Definition role_name (r : Role) : string :=
  match r with
  | system => "system"
  | user => "user"
  | assistant => "assistant"
  | tool => "tool"
  end.

(** Modelled from the spec: [function: {name, arguments}] of a tool call,
    [arguments] being JSON text; the declaration is missing. *)
Module FunctionCall.
Record t : Type := mk
  { name : string;
    arguments : string }.
End FunctionCall.

(** Modelled from the spec: a tool call [{id, type: "function", function}]
    of section 3; the declaration is missing.  [type] has one value and is
    left out. *)
Module ToolCall.
Record t : Type := mk
  { id : string;
    function : FunctionCall.t }.
End ToolCall.

(** Modelled from the spec: a message
    [{role, content, name?, toolCalls?, toolCallId?}] of section 3; the
    declaration is missing. *)
Module Message.
Record t : Type := mk
  { role : Role;
    content : string;
    name : option string;
    toolCalls : option (list ToolCall.t);
    toolCallId : option string }.
End Message.

(** No string occurs twice. *)
Fixpoint distinct (l : list string) : bool :=
  match l with
  | [] => true
  | x :: rest => negb (existsb (String.eqb x) rest) && distinct rest
  end.

(** The ids of the tool calls a message carries. *)
Definition tool_call_ids (m : Message.t) : list string :=
  match Message.toolCalls m with
  | Some calls => map ToolCall.id calls
  | None => []
  end.

(** Modelled from the spec: the invariant of section 3 on one message: a
    [tool] message carries a [toolCallId], and the ids of the tool calls
    of a message are pairwise different.  No code that checks it is among
    the sources. *)
Definition message_ok (m : Message.t) : bool :=
  match Message.role m with
  | tool =>
      match Message.toolCallId m with
      | Some _ => true
      | None => false
      end
  | _ => true
  end && distinct (tool_call_ids m).

(** A content block of a provider turn, as the test file writes them:
    [{type: 'text', text}], [{type: 'tool_use', id, name, input}] and
    [{type: 'tool_result', tool_use_id, content}]. *)
Inductive ContentBlock : Type :=
| text (text : string)
| tool_use (id name : string) (input : JSON.value)
| tool_result (tool_use_id content : string).

(** The content of a provider turn: a plain string, or a sequence of
    content blocks. *)
Inductive Content : Type :=
| Scalar (s : string)
| Blocks (bs : list ContentBlock).

(** One turn of [payload.messages]. *)
Module MessageParam.
Record t : Type := mk
  { role : string;
    content : Content }.
End MessageParam.

Section Translation.

(** [JSON.parse], as the adapter calls it on the arguments of a tool
    call. *)
Variable parse : string -> option JSON.value.

(** The tool-invocation block of one tool call, carrying the argument
    object parsed from its JSON text. *)
Definition tool_use_block (call : ToolCall.t) : option ContentBlock :=
  match parse (FunctionCall.arguments (ToolCall.function call)) with
  | Some input =>
      Some (tool_use (ToolCall.id call)
              (FunctionCall.name (ToolCall.function call)) input)
  | None => None
  end.

Fixpoint tool_use_blocks (calls : list ToolCall.t)
  : option (list ContentBlock) :=
  match calls with
  | [] => Some []
  | call :: rest =>
      match tool_use_block call, tool_use_blocks rest with
      | Some b, Some bs => Some (b :: bs)
      | _, _ => None
      end
  end.

(** Modelled from the spec: the translation of one message of section
    4.2; the adapter's code is missing.  An assistant message with tool
    calls becomes a text block followed by one tool-invocation block per
    tool call, in order; a [tool] message becomes a turn of role [user]
    (the role the test file expects) whose sole block is the tool result
    addressed to the tool-call id; any other message passes through with
    scalar content.  The specification does not say what becomes of an
    assistant message with tool calls and no text, of arguments that are
    not JSON, or of a [tool] message without a [toolCallId]. *)
Definition translate_message (m : Message.t) : option MessageParam.t :=
  match Message.role m with
  | tool =>
      match Message.toolCallId m with
      | Some id =>
          Some {| MessageParam.role := "user";
                  MessageParam.content :=
                    Blocks [tool_result id (Message.content m)] |}
      | None => None
      end
  | assistant =>
      match Message.toolCalls m with
      | Some ((_ :: _) as calls) =>
          if JS.truthy (Message.content m) then
            match tool_use_blocks calls with
            | Some blocks =>
                Some {| MessageParam.role := "assistant";
                        MessageParam.content :=
                          Blocks (text (Message.content m) :: blocks) |}
            | None => None
            end
          else None
      | _ =>
          Some {| MessageParam.role := "assistant";
                  MessageParam.content := Scalar (Message.content m) |}
      end
  | r =>
      Some {| MessageParam.role := role_name r;
              MessageParam.content := Scalar (Message.content m) |}
  end.

(** The provider message sequence of a conversation: one turn per
    message, in order. *)
Fixpoint translate_messages (ms : list Message.t)
  : option (list MessageParam.t) :=
  match ms with
  | [] => Some []
  | m :: rest =>
      match translate_message m, translate_messages rest with
      | Some t, Some ts => Some (t :: ts)
      | _, _ => None
      end
  end.

End Translation.

(** The strategy of the structured-output extractor. *)
Inductive Mode : Type :=
| SchemaConstrained
| ToolUseFallback.

(** The provider's answer to a non-streamed request, as the test file
    mocks it: [{content: [...]}]. *)
Module Response.
Record t : Type := mk { content : list ContentBlock }.
End Response.

Module StructuredOutputResult.
Record t : Type := mk
  { data : JSON.value;
    rawText : string }.
End StructuredOutputResult.

(** The failure of the schema-constrained mode; it carries the message
    the test file expects and the offending text. *)
Inductive Error : Type :=
| StructuredOutputParseError (message rawText : string).

(** The texts of the text blocks of a response, in order. *)
Fixpoint text_blocks (bs : list ContentBlock) : list string :=
  match bs with
  | [] => []
  | text t :: rest => t :: text_blocks rest
  | _ :: rest => text_blocks rest
  end.

(** The structured input of the first tool-invocation block. *)
Fixpoint first_tool_input (bs : list ContentBlock) : option JSON.value :=
  match bs with
  | [] => None
  | tool_use _ _ input :: _ => Some input
  | _ :: rest => first_tool_input rest
  end.

Section Extractor.

(** [JSON.parse], as the extractor calls it. *)
Variable parse : string -> option JSON.value.

(** Modelled from the spec: what the extractor of section 4.4 makes of
    the provider's response, in either mode; the adapter's code is
    missing.  In schema-constrained mode the sole text block is the raw
    text and is parsed as JSON; in tool-use fallback mode the input of the
    first tool-invocation block is the data and its serialization the raw
    text.  The specification does not say what happens when the expected
    block is not there. *)
Definition structuredOutput (mode : Mode) (response : Response.t)
  : option (Outcome Error StructuredOutputResult.t) :=
  match mode with
  | SchemaConstrained =>
      match text_blocks (Response.content response) with
      | [rawText] =>
          match parse rawText with
          | Some data =>
              Some (Returned
                      {| StructuredOutputResult.data := data;
                         StructuredOutputResult.rawText := rawText |})
          | None =>
              Some (Threw
                      (StructuredOutputParseError
                         "Failed to parse structured output JSON" rawText))
          end
      | _ => None
      end
  | ToolUseFallback =>
      match first_tool_input (Response.content response) with
      | Some input =>
          Some (Returned
                  {| StructuredOutputResult.data := input;
                     StructuredOutputResult.rawText := JSON.stringify input |})
      | None => None
      end
  end.

End Extractor.

(** ** The literals of the test file *)

(** [JSON.stringify({ location: 'Berlin' })]. *)
Definition toolArguments : string :=
  JSON.stringify (JSON.Object [("location", JSON.Str "Berlin")]).

(** The [messages] passed to [chat]. *)
Definition chat_messages : list Message.t :=
  [ {| Message.role := user;
       Message.content := "What is the forecast?";
       Message.name := None;
       Message.toolCalls := None;
       Message.toolCallId := None |};
    {| Message.role := assistant;
       Message.content := "Checking";
       Message.name := None;
       Message.toolCalls :=
         Some [ {| ToolCall.id := "call_weather";
                   ToolCall.function :=
                     {| FunctionCall.name := "lookup_weather";
                        FunctionCall.arguments := toolArguments |} |} ];
       Message.toolCallId := None |};
    {| Message.role := tool;
       Message.content := JSON.dq "{'temp':72}";
       Message.name := None;
       Message.toolCalls := None;
       Message.toolCallId := Some "call_weather" |} ].

(** The [payload.messages] the test expects. *)
Definition expected_payload_messages : list MessageParam.t :=
  [ {| MessageParam.role := "user";
       MessageParam.content := Scalar "What is the forecast?" |};
    {| MessageParam.role := "assistant";
       MessageParam.content :=
         Blocks
           [ text "Checking";
             tool_use "call_weather" "lookup_weather"
               (JSON.Object [("location", JSON.Str "Berlin")]) ] |};
    {| MessageParam.role := "user";
       MessageParam.content :=
         Blocks [ tool_result "call_weather" (JSON.dq "{'temp':72}") ] |} ].

(** The mocked response of the test of the tool-use fallback. *)
Definition bob : JSON.value :=
  JSON.Object [("name", JSON.Str "Bob"); ("age", JSON.integer 25)].

Definition tool_use_response : Response.t :=
  {| Response.content := [ tool_use "toolu_123" "structured_output" bob ] |}.

(** The mocked responses of the tests of the schema-constrained mode. *)
Definition alice_response : Response.t :=
  {| Response.content := [ text (JSON.dq "{'name':'Alice','age':30}") ] |}.

Definition malformed_response : Response.t :=
  {| Response.content := [ text "not valid json" ] |}.

End Anthropic.



(* ================================================================== *)
(** * The helpers of the command-line example ([examples/cli/src/utils.ts])

    A string is taken as the sequence of its code units, which the bytes
    of the embedding stand for; the two agree on ASCII text, which is what
    provider names, variable names and API keys are made of. *)

Module Utils.

(** ** Strings *)

(** [c.toLowerCase()] on an ASCII letter; any other byte is left alone.
    No provider name that the helpers compare with can come out of
    lowering a character outside ASCII: the only such characters whose
    lower case holds an ASCII letter are U+212A, which gives [k], and
    U+0130, which gives [i] followed by U+0307. *)
Definition lower (c : ascii) : ascii :=
  let n := N_of_ascii c in
  if ((65 <=? n) && (n <=? 90))%N then ascii_of_N (n + 32) else c.

(** [s.toLowerCase()]. *)
Fixpoint toLowerCase (s : string) : string :=
  match s with
  | EmptyString => EmptyString
  | String c rest => String (lower c) (toLowerCase rest)
  end.

(** [hay.includes(needle)]. *)
Fixpoint includes (hay needle : string) : bool :=
  String.prefix needle hay ||
  match hay with
  | EmptyString => false
  | String _ rest => includes rest needle
  end.

(** Every byte of [s] passes [p]. *)
Fixpoint all_chars (p : ascii -> bool) (s : string) : bool :=
  match s with
  | EmptyString => true
  | String c rest => p c && all_chars p rest
  end.

(** A byte below 128: a character of its own, which is also one UTF-16
    code unit. *)
Definition is_ascii (c : ascii) : bool := (N_of_ascii c <? 128)%N.

(** A text of ASCII characters: its bytes are its code units, and the
    bytes of a file that holds it are the text read from it. *)
Definition ascii_text (s : string) : bool := all_chars is_ascii s.

(** The line feed, as a string. *)
Definition newline : string := String (ascii_of_N 10) EmptyString.

(** [s.endsWith("\n")]. *)
Fixpoint ends_with_newline (s : string) : bool :=
  match s with
  | EmptyString => false
  | String c EmptyString => (N_of_ascii c =? 10)%N
  | String _ rest => ends_with_newline rest
  end.

(** ** [getApiKeyUrl] *)

(** The own properties of [API_KEY_URLS]. *)
Definition API_KEY_URLS : list (string * string) :=
  [ ("openai", "https://platform.openai.com/api-keys");
    ("anthropic", "https://console.anthropic.com/settings/keys");
    ("gemini", "https://aistudio.google.com/app/apikey");
    ("ollama", "https://ollama.ai/download") ].

(** The names every object literal inherits from [Object.prototype]. *)
Definition Object_prototype : list string :=
  [ "constructor"; "__proto__"; "__defineGetter__"; "__defineSetter__";
    "__lookupGetter__"; "__lookupSetter__"; "hasOwnProperty";
    "isPrototypeOf"; "propertyIsEnumerable"; "toLocaleString"; "toString";
    "valueOf" ].

(** What reading a property of [API_KEY_URLS] gives: the URL of an own
    property, the function or object inherited under a name of
    [Object.prototype], or [undefined]. *)
Inductive Looked : Type :=
| OwnUrl (url : string)
| Inherited (name : string)
| Undefined.

Fixpoint own_property (key : string) (o : list (string * string))
  : option string :=
  match o with
  | [] => None
  | (k, v) :: rest => if String.eqb key k then Some v else own_property key rest
  end.

(** [API_KEY_URLS[key]]. *)
Definition get (key : string) : Looked :=
  match own_property key API_KEY_URLS with
  | Some url => OwnUrl url
  | None =>
      if existsb (String.eqb key) Object_prototype then Inherited key
      else Undefined
  end.

(** What [getApiKeyUrl] returns: a string, or, since the function is
    typed by a cast and not checked, the inherited value it has read. *)
Inductive Returned_url : Type :=
| Url (s : string)
| NotAString (name : string).

(** [API_KEY_URLS[key] || ""]: an inherited function or object is
    truthy and is returned as it is. *)
Definition getApiKeyUrl (provider : string) : Returned_url :=
  let key := toLowerCase provider in
  match get key with
  | OwnUrl url => Url (JS.or_default url "")
  | Inherited name => NotAString name
  | Undefined => Url ""
  end.

(** ** [maskApiKey] *)

(** [length] and [slice] count UTF-16 code units.  The embedding covers
    the keys made of ASCII characters, whose bytes are their code units;
    for any other key it answers [None]. *)
Definition maskApiKey (apiKey : string) : option string :=
  if ascii_text apiKey then
    Some
      (if negb (JS.truthy apiKey) || (String.length apiKey <? 8)%nat
       then "***"
       else
         substring 0 4 apiKey ++ "..." ++
         substring (String.length apiKey - 4) 4 apiKey)
  else None.

(** ** [validateApiKey] *)

Section Validate.

(** The adapter's requests and the values it may reject with; [message]
    reads [error.message], [None] when the value has no such property.
    A value thrown is taken to be an object whose [message], if any, is a
    string. *)
Variables R E : Type.
Variable message : E -> option string.

Local Open Scope eff_scope.

(** [try { body } catch (error) { handler }]. *)
Definition try_catch {A : Type} (body : Eff R E A)
  (handler : E -> Eff R E A) : Eff R E A :=
  fun log =>
    match body log with
    | (log', Returned a) => (log', Returned a)
    | (log', Threw error) => handler error log'
    end.

(** [error.message?.includes(part)]. *)
Definition message_includes (error : E) (part : string) : bool :=
  match message error with
  | Some m => includes m part
  | None => false
  end.

Definition testMessages : list Message.t :=
  [ {| Message.role := user;
       Message.content := "Hi";
       Message.name := None |} ].

(** [{ model, messages: testMessages, maxTokens: 1 }]. *)
Definition test_request (model : string) : ChatCompletionOptions.t :=
  {| ChatCompletionOptions.model := model;
     ChatCompletionOptions.messages := testMessages;
     ChatCompletionOptions.temperature := None;
     ChatCompletionOptions.maxTokens := Some 1%Z;
     ChatCompletionOptions.topP := None;
     ChatCompletionOptions.frequencyPenalty := None;
     ChatCompletionOptions.presencePenalty := None;
     ChatCompletionOptions.stopSequences := None;
     ChatCompletionOptions.stream := None;
     ChatCompletionOptions.metadata := None |}.

(** The model of the test request of a hosted provider; the comparison
    is with [provider] as it was given, not lowered. *)
Definition test_model (provider : string) : string :=
  if String.eqb provider "gemini" then "gemini-pro"
  else if String.eqb provider "anthropic" then "claude-3-haiku-20240307"
  else "gpt-3.5-turbo".

(** The condition of the outer [catch]. *)
Definition is_auth_error (error : E) : bool :=
  message_includes error "401" ||
  message_includes error "403" ||
  message_includes error "API key" ||
  message_includes error "authentication" ||
  message_includes error "Invalid" ||
  message_includes error "Incorrect".

(** The condition of the [catch] of the Ollama case. *)
Definition is_model_error (error : E) : bool :=
  message_includes error "model" || message_includes error "not found".

Definition validateApiKey (adapter : AIAdapter.t (Eff R E))
  (provider : string) : Eff R E bool :=
  try_catch
    (let p := toLowerCase provider in
     if String.eqb p "openai" || String.eqb p "anthropic" ||
        String.eqb p "gemini"
     then
       _ <- AIAdapter.chatCompletion adapter
              (test_request (test_model provider)) ;;
       ret true
     else if String.eqb p "ollama" then
       try_catch
         (_ <- AIAdapter.chatCompletion adapter (test_request "llama2") ;;
          ret true)
         (fun error =>
            if is_model_error error then ret true else throw error)
     else ret false)
    (fun error => if is_auth_error error then ret false else throw error).

End Validate.

(** ** [saveApiKeyToEnv] *)

(** The function builds a regular expression from [envVarName] and a
    replacement pattern from [apiKey].  The embedding covers the calls in
    which the name is made of letters, digits and underscores, so that it
    stands for itself in the expression, and in which neither the name
    nor the key holds a dollar sign, so that the replacement is inserted
    as it is; for any other call it answers [None]. *)

Definition is_word_char (c : ascii) : bool :=
  let n := N_of_ascii c in
  (((48 <=? n) && (n <=? 57)) || ((65 <=? n) && (n <=? 90)) ||
   ((97 <=? n) && (n <=? 122)) || (n =? 95))%N.

Definition no_dollar (c : ascii) : bool := negb (N_of_ascii c =? 36)%N.

(** A line terminator of one code unit: line feed or carriage return. *)
Definition is_eol (c : ascii) : bool :=
  ((N_of_ascii c =? 10) || (N_of_ascii c =? 13))%N.

(** The three bytes of U+2028 or U+2029, the other two line
    terminators. *)
Definition is_separator (a b c : ascii) : bool :=
  ((N_of_ascii a =? 226) && (N_of_ascii b =? 128) &&
   ((N_of_ascii c =? 168) || (N_of_ascii c =? 169)))%N.

(** What [.*$] leaves: the rest of [s] from its first line terminator
    on. *)
Fixpoint line_rest (s : string) : string :=
  match s with
  | EmptyString => EmptyString
  | String a rest =>
      if is_eol a then s
      else
        match rest with
        | String b (String c _) =>
            if is_separator a b c then s else line_rest rest
        | _ => line_rest rest
        end
  end.

(** [s] without the prefix [p], when it starts with it. *)
Fixpoint drop_prefix (p s : string) : option string :=
  match p, s with
  | EmptyString, _ => Some s
  | String a p', String b s' =>
      if Ascii.eqb a b then drop_prefix p' s' else None
  | String _ _, EmptyString => None
  end.

(** [s.replace(/^<pat>.*$/m, repl)] from a position of [s] that is at the
    start of a line or not ([at_start]): the first line that starts with
    [pat] is replaced by [repl]; [None] when there is no such line, which
    is when [test] is false. *)
Fixpoint replace_line (pat repl : string) (at_start : bool) (s : string)
  : option string :=
  match (if at_start then drop_prefix pat s else None) with
  | Some after => Some (repl ++ line_rest after)
  | None =>
      match s with
      | EmptyString => None
      | String a rest =>
          if is_eol a then
            option_map (String a) (replace_line pat repl true rest)
          else
            match rest with
            | String b (String c rest') =>
                if is_separator a b c then
                  option_map (fun r => String a (String b (String c r)))
                    (replace_line pat repl true rest')
                else option_map (String a) (replace_line pat repl false rest)
            | _ => option_map (String a) (replace_line pat repl false rest)
            end
      end
  end.

(** [s] starts with U+2028 or U+2029. *)
Definition sep_head (s : string) : bool :=
  match s with
  | String a (String b (String c _)) => is_separator a b c
  | _ => false
  end.

(** A byte that is neither a line terminator nor the first byte of
    one. *)
Definition is_line_char (c : ascii) : bool :=
  negb (is_eol c) && negb (N_of_ascii c =? 226)%N.

(** A text without line terminator. *)
Definition one_line (s : string) : bool := all_chars is_line_char s.

(** Text [t] put after text [s] starts a line of its own: [s] ends
    with a line feed, or [t] starts with one, or [s] is empty and a line
    starts there ([b]). *)
Definition joins (s : string) (b : bool) (t : string) : Prop :=
  ends_with_newline s = true \/
  (exists t', t = newline ++ t') \/
  (s = "" /\ b = true).

(** [regex.test(envContent)]: some line of the text starts with the
    name and an equals sign. *)
Definition sets (envVarName envContent : string) : bool :=
  match replace_line (envVarName ++ "=") "" true envContent with
  | Some _ => true
  | None => false
  end.

(** The new content of the file. *)
Definition updated_content (envVarName apiKey envContent : string) : string :=
  let line := envVarName ++ "=" ++ apiKey in
  match replace_line (envVarName ++ "=") line true envContent with
  | Some replaced => replaced
  | None =>
      (if JS.truthy envContent && negb (ends_with_newline envContent)
       then envContent ++ newline else envContent) ++ line ++ newline
  end.

(** [updated_content] for the pattern [pat], which is the name followed
    by the equals sign. *)
Definition updated (pat apiKey envContent : string) : string :=
  match replace_line pat (pat ++ apiKey) true envContent with
  | Some replaced => replaced
  | None =>
      (if JS.truthy envContent && negb (ends_with_newline envContent)
       then envContent ++ newline else envContent) ++
      (pat ++ apiKey) ++ newline
  end.

(** The [.env] file of the working directory: when it exists, the text
    that reading it as UTF-8 gives, held as the bytes that writing this
    text gives (for a file of well-formed UTF-8, its own bytes); and
    whether writing it succeeds.  A file that exists can be read. *)
Record FileSystem : Type := mkFileSystem
  { env_file : option string;
    writable : bool }.

(** [saveApiKeyToEnv]: the file system afterwards and the value returned;
    what is printed is left out. *)
Definition saveApiKeyToEnv (envVarName apiKey : string) (fs : FileSystem)
  : option (FileSystem * bool) :=
  if all_chars is_word_char envVarName && all_chars no_dollar apiKey then
    let envContent :=
      match env_file fs with
      | Some text => text
      | None => ""
      end in
    let envContent := updated_content envVarName apiKey envContent in
    if writable fs
    then Some ({| env_file := Some envContent; writable := true |}, true)
    else Some (fs, false)
  else None.

End Utils.

(* ================================================================== *)
(** ** A provider to run the adapter against *)

Module Demo.
Import OpenAI.

(** A provider that answers every chat request with one choice saying
    [Hello], streams it in two deltas followed by the event that carries
    the finish reason, and returns one vector per embedding input. *)
Definition hello_stream : list ChatChunk.t :=
  [ {| ChatChunk.id := "chatcmpl-1";
       ChatChunk.model := "gpt-3.5-turbo";
       ChatChunk.choices :=
         [ {| ChunkChoice.delta :=
                Some {| Delta.content := Some "Hel";
                        Delta.role := Some "assistant" |};
              ChunkChoice.finish_reason := None |} ];
       ChatChunk.usage := None |};
    {| ChatChunk.id := "chatcmpl-1";
       ChatChunk.model := "gpt-3.5-turbo";
       ChatChunk.choices :=
         [ {| ChunkChoice.delta :=
                Some {| Delta.content := Some "lo"; Delta.role := None |};
              ChunkChoice.finish_reason := None |} ];
       ChatChunk.usage := None |};
    {| ChatChunk.id := "chatcmpl-1";
       ChatChunk.model := "gpt-3.5-turbo";
       ChatChunk.choices :=
         [ {| ChunkChoice.delta :=
                Some {| Delta.content := None; Delta.role := None |};
              ChunkChoice.finish_reason := Some "stop" |} ];
       ChatChunk.usage := None |} ].

(** An event that carries both the last piece of text and the finish
    reason. *)
Definition closing_event : ChatChunk.t :=
  {| ChatChunk.id := "chatcmpl-2";
     ChatChunk.model := "gpt-3.5-turbo";
     ChatChunk.choices :=
       [ {| ChunkChoice.delta :=
              Some {| Delta.content := Some "lo"; Delta.role := None |};
            ChunkChoice.finish_reason := Some "length" |} ];
     ChatChunk.usage := None |}.

(** The events of [hello_stream] that come before its last one. *)
Definition hello_deltas : list ChatChunk.t := removelast hello_stream.

(** The last event of [hello_stream]: it carries the finish reason and
    no text. *)
Definition hello_stop : ChatChunk.t := last hello_stream closing_event.

Definition hello_completion : ChatCompletion.t :=
  {| ChatCompletion.id := "chatcmpl-1";
     ChatCompletion.model := "gpt-3.5-turbo";
     ChatCompletion.choices :=
       [ {| ChatChoice.message_content := Some "Hello";
            ChatChoice.finish_reason := Some "stop" |} ];
     ChatCompletion.usage :=
       Some {| CompletionUsage.prompt_tokens := 3;
               CompletionUsage.completion_tokens := 1;
               CompletionUsage.total_tokens := 4 |} |}.

Definition hello_text : Completion.t :=
  {| Completion.id := "cmpl-1";
     Completion.model := "gpt-3.5-turbo-instruct";
     Completion.choices :=
       [ {| TextChoice.text := "Hello";
            TextChoice.finish_reason := Some "stop" |} ];
     Completion.usage := None |}.

Definition vectors (i : EmbeddingInput) : list Embedding.t :=
  match i with
  | OneString _ => [ {| Embedding.embedding := [(1 # 2)%Q]; Embedding.index := 0 |} ]
  | ManyStrings l =>
      map (fun _ => {| Embedding.embedding := [(1 # 2)%Q];
                       Embedding.index := 0 |}) l
  end.

Definition provider : Client :=
  {| chat_create := fun _ => inr hello_completion;
     chat_create_stream := fun _ => inr hello_stream;
     completions_create := fun _ => inr hello_text;
     completions_create_stream := fun _ => inr [hello_text];
     embeddings_create := fun p =>
       inr {| CreateEmbeddingResponse.data :=
                vectors (EmbeddingParams.input p);
              CreateEmbeddingResponse.model := EmbeddingParams.model p;
              CreateEmbeddingResponse.usage :=
                {| EmbeddingResponseUsage.prompt_tokens := 2;
                   EmbeddingResponseUsage.total_tokens := 2 |} |} |}.

Definition adapter : OpenAIAdapter.t :=
  {| OpenAIAdapter.client := provider;
     OpenAIAdapter.generateId := "openai-1" |}.

(** Chat options whose [model] and [messages] are both empty. *)
Definition empty_chat_options : ChatCompletionOptions.t :=
  {| ChatCompletionOptions.model := "";
     ChatCompletionOptions.messages := [];
     ChatCompletionOptions.temperature := None;
     ChatCompletionOptions.maxTokens := None;
     ChatCompletionOptions.topP := None;
     ChatCompletionOptions.frequencyPenalty := None;
     ChatCompletionOptions.presencePenalty := None;
     ChatCompletionOptions.stopSequences := None;
     ChatCompletionOptions.stream := None;
     ChatCompletionOptions.metadata := None |}.

(** Chat options of an ordinary call. *)
Definition chat_options : ChatCompletionOptions.t :=
  {| ChatCompletionOptions.model := "gpt-4";
     ChatCompletionOptions.messages :=
       [ {| Message.role := user;
            Message.content := "Say hello";
            Message.name := None |} ];
     ChatCompletionOptions.temperature := None;
     ChatCompletionOptions.maxTokens := None;
     ChatCompletionOptions.topP := None;
     ChatCompletionOptions.frequencyPenalty := None;
     ChatCompletionOptions.presencePenalty := None;
     ChatCompletionOptions.stopSequences := None;
     ChatCompletionOptions.stream := None;
     ChatCompletionOptions.metadata := None |}.

Definition embedding_options : EmbeddingOptions.t :=
  {| EmbeddingOptions.model := "";
     EmbeddingOptions.input := ManyStrings ["a"; "b"; "c"];
     EmbeddingOptions.dimensions := None |}.

(** Options of the facade's streaming calls that do not ask for a
    stream. *)
Definition unstreamed_text_options : TextGenerationOptions.t :=
  {| TextGenerationOptions.model := "gpt-3.5-turbo-instruct";
     TextGenerationOptions.prompt := "Say hello";
     TextGenerationOptions.maxTokens := None;
     TextGenerationOptions.temperature := None;
     TextGenerationOptions.topP := None;
     TextGenerationOptions.frequencyPenalty := None;
     TextGenerationOptions.presencePenalty := None;
     TextGenerationOptions.stopSequences := None;
     TextGenerationOptions.stream := Some false |}.

(** An adapter that shows what it was called with: its streaming
    methods yield the [stream] flag of the options they receive. *)
Definition show_flag (b : option bool) : string :=
  match b with
  | Some true => "stream: true"
  | Some false => "stream: false"
  | None => "stream: undefined"
  end.

Definition no_usage : Usage.t :=
  {| Usage.promptTokens := 0;
     Usage.completionTokens := 0;
     Usage.totalTokens := 0 |}.

Definition spy : AIAdapter.t (fun A => A) :=
  {| AIAdapter.name := "spy";
     AIAdapter.chatCompletion := fun o =>
       {| ChatCompletionResult.id := "1";
          ChatCompletionResult.model := ChatCompletionOptions.model o;
          ChatCompletionResult.content :=
            show_flag (ChatCompletionOptions.stream o);
          ChatCompletionResult.role := assistant;
          ChatCompletionResult.finishReason := None;
          ChatCompletionResult.usage := no_usage |};
     AIAdapter.chatCompletionStream := fun o =>
       [ {| ChatCompletionChunk.id := "1";
            ChatCompletionChunk.model := ChatCompletionOptions.model o;
            ChatCompletionChunk.content :=
              show_flag (ChatCompletionOptions.stream o);
            ChatCompletionChunk.role := None;
            ChatCompletionChunk.finishReason := None;
            ChatCompletionChunk.usage := None |} ];
     AIAdapter.generateText := fun o =>
       {| TextGenerationResult.id := "1";
          TextGenerationResult.model := TextGenerationOptions.model o;
          TextGenerationResult.text :=
            show_flag (TextGenerationOptions.stream o);
          TextGenerationResult.finishReason := None;
          TextGenerationResult.usage := no_usage |};
     AIAdapter.generateTextStream := fun o =>
       [ show_flag (TextGenerationOptions.stream o) ];
     AIAdapter.summarize := fun o =>
       {| SummarizationResult.id := "1";
          SummarizationResult.model := SummarizationOptions.model o;
          SummarizationResult.summary := SummarizationOptions.text o;
          SummarizationResult.usage := no_usage |};
     AIAdapter.createEmbeddings := fun o =>
       {| EmbeddingResult.id := "1";
          EmbeddingResult.model := EmbeddingOptions.model o;
          EmbeddingResult.embeddings := [];
          EmbeddingResult.usage :=
            {| EmbeddingUsage.promptTokens := 0;
               EmbeddingUsage.totalTokens := 0 |} |} |}.

End Demo.

(* ================================================================== *)
(** ** Providers and adapters that fail *)

Module Scenario.
Import OpenAI.

(** A provider that rejects every request with [error]. *)
Definition rejecting (error : Error) : Client :=
  {| chat_create := fun _ => inl error;
     chat_create_stream := fun _ => inl error;
     completions_create := fun _ => inl error;
     completions_create_stream := fun _ => inl error;
     embeddings_create := fun _ => inl error |}.

Definition unauthorized : Error :=
  ProviderError "401 Incorrect API key provided".

Definition unreachable : Error := ProviderError "connect ECONNREFUSED".

Definition model_missing : Error :=
  ProviderError "model 'llama2' not found, try pulling it first".

Definition adapter_rejecting (error : Error) : OpenAIAdapter.t :=
  {| OpenAIAdapter.client := rejecting error;
     OpenAIAdapter.generateId := "openai-2" |}.

(** A provider whose answers have no choice. *)
Definition no_choice_completion : ChatCompletion.t :=
  {| ChatCompletion.id := "chatcmpl-3";
     ChatCompletion.model := "gpt-3.5-turbo";
     ChatCompletion.choices := [];
     ChatCompletion.usage := None |}.

Definition no_choice_text : Completion.t :=
  {| Completion.id := "cmpl-3";
     Completion.model := "gpt-3.5-turbo-instruct";
     Completion.choices := [];
     Completion.usage := None |}.

Definition choiceless : Client :=
  {| chat_create := fun _ => inr no_choice_completion;
     chat_create_stream :=
       fun _ => inr [ {| ChatChunk.id := "chatcmpl-3";
                         ChatChunk.model := "gpt-3.5-turbo";
                         ChatChunk.choices := [];
                         ChatChunk.usage := None |} ];
     completions_create := fun _ => inr no_choice_text;
     completions_create_stream := fun _ => inr [no_choice_text];
     embeddings_create := fun p =>
       inr {| CreateEmbeddingResponse.data := [];
              CreateEmbeddingResponse.model := EmbeddingParams.model p;
              CreateEmbeddingResponse.usage :=
                {| EmbeddingResponseUsage.prompt_tokens := 0;
                   EmbeddingResponseUsage.total_tokens := 0 |} |} |}.

Definition adapter_choiceless : OpenAIAdapter.t :=
  {| OpenAIAdapter.client := choiceless;
     OpenAIAdapter.generateId := "openai-3" |}.

(** [error.message] of what the OpenAI adapter rejects with. *)
Definition error_message (error : Error) : option string :=
  match error with
  | ProviderError e => Some e
  | TypeError what => Some what
  end.

Definition text_options : TextGenerationOptions.t :=
  {| TextGenerationOptions.model := "";
     TextGenerationOptions.prompt := "Say hello";
     TextGenerationOptions.maxTokens := None;
     TextGenerationOptions.temperature := None;
     TextGenerationOptions.topP := None;
     TextGenerationOptions.frequencyPenalty := None;
     TextGenerationOptions.presencePenalty := None;
     TextGenerationOptions.stopSequences := None;
     TextGenerationOptions.stream := None |}.

Definition summary_options : SummarizationOptions.t :=
  {| SummarizationOptions.model := "";
     SummarizationOptions.text := "A long text";
     SummarizationOptions.maxLength := Some 0%Z;
     SummarizationOptions.style := Some concise;
     SummarizationOptions.focus := Some [] |}.

(** A [.env] file that sets two variables, and one that sets none. *)
Definition env_text : string :=
  "# keys" ++ Utils.newline ++ "OPENAI_API_KEY=sk-old" ++ Utils.newline ++
  "DEBUG=1" ++ Utils.newline.

Definition env_with_file : Utils.FileSystem :=
  {| Utils.env_file := Some env_text; Utils.writable := true |}.

Definition env_without_file : Utils.FileSystem :=
  {| Utils.env_file := None; Utils.writable := true |}.

End Scenario.

(** The text of the first choice of a text completion, and of an event
    of a streamed one; nothing when there is no choice. *)
Definition first_text (c : OpenAI.Completion.t) : string :=
  match OpenAI.Completion.choices c with
  | choice :: _ => OpenAI.TextChoice.text choice
  | [] => ""
  end.

(* ================================================================== *)
(** * The notions the properties are stated with *)

(** An operation that fails locally: it rejects, and no request has
    left for the provider. *)
Definition rejected_before_any_request {R E A : Type} (m : Eff R E A)
  : Prop :=
  requests_of m = [] /\ exists e, outcome_of m = Threw e.

(** The text of the first choice of a chat completion, [null] standing
    for no text. *)
Definition response_text (response : OpenAI.ChatCompletion.t) : string :=
  match OpenAI.ChatCompletion.choices response with
  | choice :: _ =>
      match OpenAI.ChatChoice.message_content choice with
      | Some s => s
      | None => ""
      end
  | [] => ""
  end.

(** The text the first choice of one streamed event adds. *)
Definition event_text (event : OpenAI.ChatChunk.t) : string :=
  match OpenAI.ChatChunk.choices event with
  | c :: _ =>
      match OpenAI.ChunkChoice.delta c with
      | Some d =>
          match OpenAI.Delta.content d with
          | Some s => s
          | None => ""
          end
      | None => ""
      end
  | [] => ""
  end.

(** The text a stream of events spells out for the first choice. *)
Definition stream_text (events : list OpenAI.ChatChunk.t) : string :=
  JS.concat_all (map event_text events).

(** A chunk that carries usage totals and no text. *)
Definition usage_only (c : ChatCompletionChunk.t) : bool :=
  negb (JS.truthy (ChatCompletionChunk.content c)) &&
  match ChatCompletionChunk.usage c with
  | Some _ => true
  | None => false
  end.

(** The text of a sequence of chunks, a usage-only chunk left aside. *)
Definition chunks_text (chunks : list ChatCompletionChunk.t) : string :=
  JS.concat_all
    (map ChatCompletionChunk.content
       (filter (fun c => negb (usage_only c)) chunks)).

(** The chunks end with one that reports the finish reason [reason] and
    usage totals, and no chunk before it reports either. *)
Definition ends_with_terminal_chunk (chunks : list ChatCompletionChunk.t)
  (reason : string) : Prop :=
  exists earlier final,
    chunks = (earlier ++ [final])%list /\
    ChatCompletionChunk.finishReason final = Some reason /\
    (exists u, ChatCompletionChunk.usage final = Some u) /\
    Forall (fun c => ChatCompletionChunk.finishReason c = None /\
                     ChatCompletionChunk.usage c = None) earlier.

(* ================================================================== *)
(** * Properties *)

Unset Implicit Arguments.

(** ** Strings and the request log *)

Lemma append_empty_r (s : string) : s ++ "" = s.
Proof. induction s as [|c s IH]; simpl; [reflexivity | now rewrite IH]. Qed.

Lemma append_assoc (a b c : string) : (a ++ b) ++ c = a ++ (b ++ c).
Proof. induction a as [|x a IH]; simpl; [reflexivity | now rewrite IH]. Qed.

Lemma concat_all_app (xs ys : list string) :
  JS.concat_all (xs ++ ys)%list = JS.concat_all xs ++ JS.concat_all ys.
Proof.
  induction xs as [|x xs IH]; simpl; [reflexivity |].
  now rewrite IH, append_assoc.
Qed.

Lemma or_default_spec (s d : string) :
  JS.or_default s d = if String.eqb s "" then d else s.
Proof. destruct s; reflexivity. Qed.

(** A request followed by a continuation that issues none: the log grows
    by that one request, whatever the provider answers. *)
Lemma one_request {R E A B : Type} (r : R) (reply : E + A)
  (k : A -> Eff R E B) (log : list R) :
  (forall a l, fst (k a l) = l) ->
  fst (bind (request r reply) k log) = (log ++ [r])%list.
Proof.
  intros Hk. unfold bind, request.
  destruct reply as [e | a]; simpl; [reflexivity | apply Hk].
Qed.

(** A request that the provider answers, followed by a continuation. *)
Lemma request_answered {R E A B : Type} (r : R) (a : A)
  (k : A -> Eff R E B) (log : list R) :
  bind (request r (inr a)) k log = k a (log ++ [r])%list.
Proof. reflexivity. Qed.

Ltac no_request :=
  intros; repeat match goal with
                 | |- context [match ?x with _ => _ end] => destruct x
                 end; reflexivity.

(** ** The requests the OpenAI adapter issues *)

Module RequestFacts.
Import OpenAI OpenAIAdapter.

Lemma chatCompletion_log self o log :
  fst (chatCompletion self o log)
  = (log ++ [ChatRequest (chat_params o false)])%list.
Proof. unfold chatCompletion. apply one_request. no_request. Qed.

Lemma chatCompletionStream_log self o log :
  fst (chatCompletionStream self o log)
  = (log ++ [ChatRequest (chat_params o true)])%list.
Proof. unfold chatCompletionStream. apply one_request. no_request. Qed.

Lemma generateText_log self o log :
  fst (generateText self o log)
  = (log ++ [CompletionRequest (completion_params o false)])%list.
Proof. unfold generateText. apply one_request. no_request. Qed.

Lemma generateTextStream_log self o log :
  fst (generateTextStream self o log)
  = (log ++ [CompletionRequest (completion_params o true)])%list.
Proof. unfold generateTextStream. apply one_request. no_request. Qed.

Lemma summarize_log self o log :
  fst (summarize self o log)
  = (log ++ [ChatRequest (summarize_params o)])%list.
Proof. unfold summarize. apply one_request. no_request. Qed.

Lemma createEmbeddings_log self o log :
  fst (createEmbeddings self o log)
  = (log ++ [EmbeddingRequest (embedding_params o)])%list.
Proof. unfold createEmbeddings. apply one_request. no_request. Qed.

End RequestFacts.


(** ** Empty [model] and empty content (claim C1) *)

(** C1, refuted as stated: [chatCompletion] called with an empty [model]
    and an empty [messages] does not fail locally.  It sends one request,
    for the model [gpt-3.5-turbo] and with no message, and passes on what
    the provider answers. *)
Lemma empty_fields_are_not_rejected :
  requests_of (OpenAIAdapter.chatCompletion Demo.adapter
                 Demo.empty_chat_options)
  = [ OpenAI.ChatRequest
        (OpenAIAdapter.chat_params Demo.empty_chat_options false) ] /\
  OpenAI.ChatParams.model
    (OpenAIAdapter.chat_params Demo.empty_chat_options false)
  = "gpt-3.5-turbo" /\
  OpenAI.ChatParams.messages
    (OpenAIAdapter.chat_params Demo.empty_chat_options false) = [] /\
  (exists result,
      outcome_of (OpenAIAdapter.chatCompletion Demo.adapter
                    Demo.empty_chat_options) = Returned result /\
      ChatCompletionResult.content result = "Hello") /\
  ~ rejected_before_any_request
      (OpenAIAdapter.chatCompletion Demo.adapter Demo.empty_chat_options).
Proof.
  repeat split; try reflexivity.
  - eexists. split; reflexivity.
  - intros [Hlog _]. discriminate Hlog.
Qed.

(** C1, as the adapter has it: none of the six operations checks its
    options.  Each one, on every options object and whatever the provider
    answers, issues exactly one request; an empty [model] is replaced in
    it by the operation's default model, and the primary content field is
    forwarded as it is, empty or not. *)
Theorem operations_send_one_request_unchecked :
  forall (self : OpenAIAdapter.t) (log : list OpenAI.Request),
    (forall o, exists p,
        fst (OpenAIAdapter.chatCompletion self o log)
        = (log ++ [OpenAI.ChatRequest p])%list /\
        OpenAI.ChatParams.model p
        = (if String.eqb (ChatCompletionOptions.model o) ""
           then "gpt-3.5-turbo" else ChatCompletionOptions.model o) /\
        OpenAI.ChatParams.messages p
        = map OpenAIAdapter.message_param (ChatCompletionOptions.messages o) /\
        OpenAI.ChatParams.stream p = false) /\
    (forall o, exists p,
        fst (OpenAIAdapter.chatCompletionStream self o log)
        = (log ++ [OpenAI.ChatRequest p])%list /\
        OpenAI.ChatParams.model p
        = (if String.eqb (ChatCompletionOptions.model o) ""
           then "gpt-3.5-turbo" else ChatCompletionOptions.model o) /\
        OpenAI.ChatParams.messages p
        = map OpenAIAdapter.message_param (ChatCompletionOptions.messages o) /\
        OpenAI.ChatParams.stream p = true) /\
    (forall o, exists p,
        fst (OpenAIAdapter.generateText self o log)
        = (log ++ [OpenAI.CompletionRequest p])%list /\
        OpenAI.CompletionParams.model p
        = (if String.eqb (TextGenerationOptions.model o) ""
           then "gpt-3.5-turbo-instruct" else TextGenerationOptions.model o) /\
        OpenAI.CompletionParams.prompt p = TextGenerationOptions.prompt o /\
        OpenAI.CompletionParams.stream p = false) /\
    (forall o, exists p,
        fst (OpenAIAdapter.generateTextStream self o log)
        = (log ++ [OpenAI.CompletionRequest p])%list /\
        OpenAI.CompletionParams.model p
        = (if String.eqb (TextGenerationOptions.model o) ""
           then "gpt-3.5-turbo-instruct" else TextGenerationOptions.model o) /\
        OpenAI.CompletionParams.prompt p = TextGenerationOptions.prompt o /\
        OpenAI.CompletionParams.stream p = true) /\
    (forall o, exists p system_prompt,
        fst (OpenAIAdapter.summarize self o log)
        = (log ++ [OpenAI.ChatRequest p])%list /\
        OpenAI.ChatParams.model p
        = (if String.eqb (SummarizationOptions.model o) ""
           then "gpt-3.5-turbo" else SummarizationOptions.model o) /\
        OpenAI.ChatParams.messages p
        = [ OpenAI.MessageParam.mk system system_prompt None;
            OpenAI.MessageParam.mk user (SummarizationOptions.text o) None ]) /\
    (forall o, exists p,
        fst (OpenAIAdapter.createEmbeddings self o log)
        = (log ++ [OpenAI.EmbeddingRequest p])%list /\
        OpenAI.EmbeddingParams.model p
        = (if String.eqb (EmbeddingOptions.model o) ""
           then "text-embedding-ada-002" else EmbeddingOptions.model o) /\
        OpenAI.EmbeddingParams.input p = EmbeddingOptions.input o).
Proof.
  intros self log. repeat split; intros o.
  - eexists. split; [apply RequestFacts.chatCompletion_log |].
    simpl. now rewrite or_default_spec.
  - eexists. split; [apply RequestFacts.chatCompletionStream_log |].
    simpl. now rewrite or_default_spec.
  - eexists. split; [apply RequestFacts.generateText_log |].
    simpl. now rewrite or_default_spec.
  - eexists. split; [apply RequestFacts.generateTextStream_log |].
    simpl. now rewrite or_default_spec.
  - do 2 eexists. split; [apply RequestFacts.summarize_log |].
    simpl. rewrite or_default_spec. split; reflexivity.
  - eexists. split; [apply RequestFacts.createEmbeddings_log |].
    simpl. now rewrite or_default_spec.
Qed.

(** ** The request of [summarize] (claim C10) *)

(** C10: for every options object, and whatever the provider answers,
    [summarize] issues exactly one outbound chat request.  Its messages
    are exactly two: a system message holding the prompt
    [buildSummarizationPrompt] builds, then a user message holding
    [options.text]; its [temperature] is 0.3 and its [max_tokens] is
    [options.maxLength].  The prompt is a function of [style], [focus] and
    [maxLength] alone. *)
Theorem summarize_request :
  (forall (self : OpenAIAdapter.t) (o : SummarizationOptions.t)
          (log : list OpenAI.Request),
      exists p,
        fst (OpenAIAdapter.summarize self o log)
        = (log ++ [OpenAI.ChatRequest p])%list /\
        OpenAI.ChatParams.messages p
        = [ OpenAI.MessageParam.mk system
              (OpenAIAdapter.buildSummarizationPrompt o) None;
            OpenAI.MessageParam.mk user (SummarizationOptions.text o) None ] /\
        OpenAI.ChatParams.temperature p = Some (3 # 10)%Q /\
        OpenAI.ChatParams.max_tokens p = SummarizationOptions.maxLength o /\
        OpenAI.ChatParams.stream p = false) /\
  (exists build : option SummaryStyle -> option (list string) -> option Z
                  -> string,
      forall o : SummarizationOptions.t,
        OpenAIAdapter.buildSummarizationPrompt o
        = build (SummarizationOptions.style o) (SummarizationOptions.focus o)
            (SummarizationOptions.maxLength o)).
Proof.
  split.
  - intros self o log. eexists.
    split; [apply RequestFacts.summarize_log |].
    repeat split; reflexivity.
  - exists (fun style focus maxLength =>
              "You are a professional summarizer. " ++
              OpenAIAdapter.style_sentence style ++
              OpenAIAdapter.focus_sentence focus ++
              OpenAIAdapter.length_sentence maxLength).
    intros o. unfold OpenAIAdapter.buildSummarizationPrompt.
    cbv zeta. now rewrite !append_assoc.
Qed.

(** The prompt of a call that sets every field the prompt reads. *)
Example summarization_prompt_example :
  OpenAIAdapter.buildSummarizationPrompt
    {| SummarizationOptions.model := "gpt-4";
       SummarizationOptions.text := "A long text";
       SummarizationOptions.maxLength := Some 150%Z;
       SummarizationOptions.style := Some bullet_points;
       SummarizationOptions.focus := Some ["cost"; "risk"] |}
  = "You are a professional summarizer. Provide a summary in bullet point format. Focus on the following aspects: cost, risk. Keep the summary under 150 tokens. ".
Proof. reflexivity. Qed.

(** The prompt of a call that sets none of them; a [maxLength] of zero
    and an empty [focus] add nothing either. *)
Example summarization_prompt_default :
  OpenAIAdapter.buildSummarizationPrompt
    {| SummarizationOptions.model := "";
       SummarizationOptions.text := "";
       SummarizationOptions.maxLength := Some 0%Z;
       SummarizationOptions.style := None;
       SummarizationOptions.focus := Some [] |}
  = "You are a professional summarizer. Provide a clear and concise summary. ".
Proof. reflexivity. Qed.

(** ** The length of [embeddings] (claim C9) *)

(** C9, refuted as stated: the provider answers a request for three
    inputs with no entry of [data].  [createEmbeddings] returns, and the
    [embeddings] of its result is empty: its length is not the number of
    inputs. *)
Lemma provider_decides_the_count :
  input_count (EmbeddingOptions.input Demo.embedding_options) = 3 /\
  exists result,
    OpenAIAdapter.createEmbeddings Scenario.adapter_choiceless
      Demo.embedding_options []
    = ([OpenAI.EmbeddingRequest
          (OpenAIAdapter.embedding_params Demo.embedding_options)],
       Returned result) /\
    EmbeddingResult.embeddings result = [] /\
    length (EmbeddingResult.embeddings result)
    <> input_count (EmbeddingOptions.input Demo.embedding_options).
Proof.
  split; [reflexivity |].
  eexists. split; [reflexivity |]. split; [reflexivity |].
  simpl. discriminate.
Qed.

(** C9, as the adapter has it: whenever the provider answers the
    request, [createEmbeddings] returns a result whose [embeddings] holds
    the vector of each entry of the answer's [data], in order, and so has
    as many vectors as the answer has entries; the number of inputs is not
    looked at.  The length is the number of inputs supplied, one for a
    single string and [N] for a list of [N] strings, exactly when the
    provider sends one entry per input. *)
Theorem createEmbeddings_length :
  forall (self : OpenAIAdapter.t) (o : EmbeddingOptions.t)
         (log : list OpenAI.Request)
         (response : OpenAI.CreateEmbeddingResponse.t),
    OpenAI.embeddings_create (OpenAIAdapter.client self)
      (OpenAIAdapter.embedding_params o) = inr response ->
    exists result,
      OpenAIAdapter.createEmbeddings self o log
      = ((log ++ [OpenAI.EmbeddingRequest (OpenAIAdapter.embedding_params o)])%list,
         Returned result) /\
      EmbeddingResult.embeddings result
      = map OpenAI.Embedding.embedding
          (OpenAI.CreateEmbeddingResponse.data response) /\
      length (EmbeddingResult.embeddings result)
      = length (OpenAI.CreateEmbeddingResponse.data response) /\
      (length (EmbeddingResult.embeddings result)
       = input_count (EmbeddingOptions.input o) <->
       length (OpenAI.CreateEmbeddingResponse.data response)
       = input_count (EmbeddingOptions.input o)) /\
      (forall s, EmbeddingOptions.input o = OneString s ->
                 (length (EmbeddingResult.embeddings result) = 1 <->
                  length (OpenAI.CreateEmbeddingResponse.data response) = 1)) /\
      (forall l, EmbeddingOptions.input o = ManyStrings l ->
                 (length (EmbeddingResult.embeddings result) = length l <->
                  length (OpenAI.CreateEmbeddingResponse.data response)
                  = length l)).
Proof.
  intros self o log response Hreply.
  unfold OpenAIAdapter.createEmbeddings. cbv zeta.
  rewrite Hreply, request_answered. unfold ret.
  eexists. split; [reflexivity |]. simpl.
  rewrite length_map. repeat split; auto.
Qed.

(** The theorem at a call with three inputs, answered with three
    entries. *)
Lemma createEmbeddings_length_witness :
  exists result,
    OpenAIAdapter.createEmbeddings Demo.adapter Demo.embedding_options []
    = ([OpenAI.EmbeddingRequest
          (OpenAIAdapter.embedding_params Demo.embedding_options)],
       Returned result) /\
    length (EmbeddingResult.embeddings result) = 3.
Proof.
  destruct (createEmbeddings_length Demo.adapter Demo.embedding_options []
                 {| OpenAI.CreateEmbeddingResponse.data :=
                      Demo.vectors (ManyStrings ["a"; "b"; "c"]);
                    OpenAI.CreateEmbeddingResponse.model :=
                      "text-embedding-ada-002";
                    OpenAI.CreateEmbeddingResponse.usage :=
                      {| OpenAI.EmbeddingResponseUsage.prompt_tokens := 2;
                         OpenAI.EmbeddingResponseUsage.total_tokens := 2 |} |}
              eq_refl)
    as [result (Hrun & _ & Hlen & _)].
  exists result. split; [exact Hrun | exact Hlen].
Defined.

(** ** Streamed chunks (claims C2 and C3) *)

Module StreamFacts.
Import OpenAI OpenAIAdapter.

Lemma chat_stream_loop_app (xs ys : list ChatChunk.t) :
  chat_stream_loop (xs ++ ys)%list
  = (chat_stream_loop xs ++ chat_stream_loop ys)%list.
Proof.
  induction xs as [|x xs IH]; simpl; [reflexivity |].
  now rewrite IH, app_assoc.
Qed.

(** What one event yields: nothing, or one chunk built from that event,
    without usage. *)
Lemma chat_stream_step_cases (event : ChatChunk.t) :
  (chat_stream_step event = [] /\
   JS.opt_truthy (delta_content event) = false) \/
  (exists c,
      chat_stream_step event = [c] /\
      JS.opt_truthy (delta_content event) = true /\
      Some (ChatCompletionChunk.content c) = delta_content event /\
      ChatCompletionChunk.id c = ChatChunk.id event /\
      ChatCompletionChunk.model c = ChatChunk.model event /\
      ChatCompletionChunk.finishReason c = first_finish_reason event /\
      ChatCompletionChunk.usage c = None).
Proof.
  unfold chat_stream_step, delta_content.
  destruct (first_delta event) as [d|]; [| now left].
  destruct (Delta.content d) as [s|]; [| now left].
  simpl. destruct (JS.truthy s) eqn:Hs; [right | now left].
  eexists. repeat split; assumption || reflexivity.
Qed.

(** The text of what one event yields is the text the event adds. *)
Lemma chat_stream_step_text (event : ChatChunk.t) :
  JS.concat_all (map ChatCompletionChunk.content (chat_stream_step event))
  = event_text event.
Proof.
  unfold chat_stream_step, event_text, first_delta.
  destruct (ChatChunk.choices event) as [|c rest]; [reflexivity |].
  destruct (ChunkChoice.delta c) as [d|]; [| reflexivity].
  destruct (Delta.content d) as [s|]; [| reflexivity].
  destruct s as [|a s]; simpl; [reflexivity |].
  now rewrite append_empty_r.
Qed.

Lemma chat_stream_loop_text (events : list ChatChunk.t) :
  JS.concat_all (map ChatCompletionChunk.content (chat_stream_loop events))
  = stream_text events.
Proof.
  unfold stream_text.
  induction events as [|e events IH]; simpl; [reflexivity |].
  now rewrite map_app, concat_all_app, chat_stream_step_text, IH.
Qed.

(** No chunk of the loop carries usage totals. *)
Lemma chat_stream_loop_no_usage (events : list ChatChunk.t) :
  Forall (fun c => ChatCompletionChunk.usage c = None)
    (chat_stream_loop events).
Proof.
  induction events as [|e events IH]; simpl; [constructor |].
  apply Forall_app. split; [| exact IH].
  destruct (chat_stream_step_cases e) as [[-> _] | [c [-> H]]].
  - constructor.
  - constructor; [apply H | constructor].
Qed.

(** So none of them is a usage-only chunk. *)
Lemma no_usage_only (chunks : list ChatCompletionChunk.t) :
  Forall (fun c => ChatCompletionChunk.usage c = None) chunks ->
  filter (fun c => negb (usage_only c)) chunks = chunks.
Proof.
  induction 1 as [|c chunks Hc _ IH]; simpl; [reflexivity |].
  unfold usage_only at 1. rewrite Hc, andb_false_r. simpl. now rewrite IH.
Qed.

(** Every chunk carries the finish reason of an event that has text. *)
Lemma chat_stream_loop_finish_reason (events : list ChatChunk.t) :
  Forall (fun e => first_finish_reason e = None) events ->
  Forall (fun c => ChatCompletionChunk.finishReason c = None)
    (chat_stream_loop events).
Proof.
  induction 1 as [|e events He _ IH]; simpl; [constructor |].
  apply Forall_app. split; [| exact IH].
  destruct (chat_stream_step_cases e) as [[-> _] | [c [-> H]]].
  - constructor.
  - constructor; [| constructor].
    destruct H as (_ & _ & _ & _ & Hfinish & _). congruence.
Qed.

End StreamFacts.

(** C2: let the plain and the streamed chat request of one call be
    answered with the same model response: the completion has a first
    choice, and the text the streamed events spell out is the text of
    that choice.  Then both operations return, and the contents of the
    chunks of [chatCompletionStream], a usage-only chunk left aside, add up
    to the [content] of the result of [chatCompletion]. *)
Theorem streamed_content_matches :
  forall (self : OpenAIAdapter.t) (o : ChatCompletionOptions.t)
         (log : list OpenAI.Request)
         (response : OpenAI.ChatCompletion.t)
         (events : list OpenAI.ChatChunk.t),
    OpenAI.chat_create (OpenAIAdapter.client self)
      (OpenAIAdapter.chat_params o false) = inr response ->
    OpenAI.chat_create_stream (OpenAIAdapter.client self)
      (OpenAIAdapter.chat_params o true) = inr events ->
    OpenAI.ChatCompletion.choices response <> [] ->
    stream_text events = response_text response ->
    exists result chunks,
      snd (OpenAIAdapter.chatCompletion self o log) = Returned result /\
      snd (OpenAIAdapter.chatCompletionStream self o log) = Returned chunks /\
      chunks_text chunks = ChatCompletionResult.content result.
Proof.
  intros self o log response events Hplain Hstream Hchoice Htext.
  unfold OpenAIAdapter.chatCompletion, OpenAIAdapter.chatCompletionStream.
  cbv zeta. rewrite Hplain, Hstream, !request_answered.
  unfold response_text in Htext.
  destruct (OpenAI.ChatCompletion.choices response) as [|choice rest];
    [contradiction |].
  do 2 eexists. repeat split.
  unfold chunks_text.
  rewrite StreamFacts.no_usage_only
    by apply StreamFacts.chat_stream_loop_no_usage.
  rewrite StreamFacts.chat_stream_loop_text, Htext. simpl.
  destruct (OpenAI.ChatChoice.message_content choice) as [s|];
    [| reflexivity].
  now destruct s.
Qed.

(** The theorem at the provider that says [Hello] in two deltas. *)
Lemma streamed_content_matches_witness :
  exists result chunks,
    snd (OpenAIAdapter.chatCompletion Demo.adapter Demo.chat_options [])
    = Returned result /\
    snd (OpenAIAdapter.chatCompletionStream Demo.adapter Demo.chat_options [])
    = Returned chunks /\
    chunks_text chunks = ChatCompletionResult.content result.
Proof.
  apply (streamed_content_matches Demo.adapter Demo.chat_options []
           Demo.hello_completion Demo.hello_stream).
  - reflexivity.
  - reflexivity.
  - discriminate.
  - reflexivity.
Defined.

(** What the two calls of the witness return. *)
Example hello_chunks :
  outcome_of (OpenAIAdapter.chatCompletionStream Demo.adapter
                Demo.chat_options)
  = Returned
      [ {| ChatCompletionChunk.id := "chatcmpl-1";
           ChatCompletionChunk.model := "gpt-3.5-turbo";
           ChatCompletionChunk.content := "Hel";
           ChatCompletionChunk.role := Some "assistant";
           ChatCompletionChunk.finishReason := None;
           ChatCompletionChunk.usage := None |};
        {| ChatCompletionChunk.id := "chatcmpl-1";
           ChatCompletionChunk.model := "gpt-3.5-turbo";
           ChatCompletionChunk.content := "lo";
           ChatCompletionChunk.role := None;
           ChatCompletionChunk.finishReason := None;
           ChatCompletionChunk.usage := None |} ].
Proof. reflexivity. Qed.

(** C3, refuted as stated: the provider's stream ends with an event that
    carries the finish reason [stop] and no text.  The chunks emitted are
    the two that carry text; neither reports [stop] or usage totals, so
    the sequence does not end with a terminal chunk. *)
Lemma terminal_event_yields_no_chunk :
  Demo.hello_stream = (Demo.hello_deltas ++ [Demo.hello_stop])%list /\
  OpenAIAdapter.first_finish_reason Demo.hello_stop = Some "stop" /\
  OpenAIAdapter.chat_stream_step Demo.hello_stop = [] /\
  Forall (fun c => ChatCompletionChunk.finishReason c = None /\
                   ChatCompletionChunk.usage c = None)
    (OpenAIAdapter.chat_stream_loop Demo.hello_stream) /\
  ~ ends_with_terminal_chunk
      (OpenAIAdapter.chat_stream_loop Demo.hello_stream) "stop".
Proof.
  repeat split; try reflexivity.
  - repeat constructor.
  - intros (earlier & final & Hchunks & Hreason & _).
    change (OpenAIAdapter.chat_stream_loop Demo.hello_stream)
      with ([ ChatCompletionChunk.mk "chatcmpl-1" "gpt-3.5-turbo" "Hel"
                (Some "assistant") None None ] ++
            [ ChatCompletionChunk.mk "chatcmpl-1" "gpt-3.5-turbo" "lo"
                None None None ])%list in Hchunks.
    apply app_inj_tail in Hchunks as [_ <-].
    discriminate Hreason.
Qed.

(** Every chunk of the loop is built from an event of the stream that
    carries text, and has no usage. *)
Lemma chat_stream_loop_origin (events : list OpenAI.ChatChunk.t) :
  Forall
    (fun c =>
       ChatCompletionChunk.usage c = None /\
       exists e,
         In e events /\
         OpenAIAdapter.delta_content e
         = Some (ChatCompletionChunk.content c) /\
         JS.truthy (ChatCompletionChunk.content c) = true /\
         ChatCompletionChunk.finishReason c
         = OpenAIAdapter.first_finish_reason e)
    (OpenAIAdapter.chat_stream_loop events).
Proof.
  induction events as [|e events IH]; simpl; [constructor |].
  apply Forall_app. split.
  - destruct (StreamFacts.chat_stream_step_cases e)
      as [[-> _] | [c [-> H]]]; constructor; [| constructor].
    destruct H as (Htext & Hcontent & _ & _ & Hreason & Husage).
    split; [exact Husage |]. exists e. repeat split; auto.
    rewrite <- Hcontent in Htext. exact Htext.
  - eapply Forall_impl; [| exact IH].
    intros c (Hu & e' & Hin & H'). split; [exact Hu |].
    exists e'. split; [now right | exact H'].
Qed.

(** C3, as the adapter has it: in every streamed chat call, no chunk
    carries [usage], and each chunk is built from one event of the stream
    that has a non-empty text delta and carries that event's finish
    reason.  So when no event before the terminal one has a finish reason,
    every chunk built from the earlier events has a null [finishReason],
    and these chunks come first; and a terminal event that also carries
    text yields one final chunk whose [finishReason] is that event's,
    without [usage]. *)
Theorem stream_finish_reason_and_usage :
  forall events : list OpenAI.ChatChunk.t,
    Forall
      (fun c =>
         ChatCompletionChunk.usage c = None /\
         exists e,
           In e events /\
           OpenAIAdapter.delta_content e
           = Some (ChatCompletionChunk.content c) /\
           JS.truthy (ChatCompletionChunk.content c) = true /\
           ChatCompletionChunk.finishReason c
           = OpenAIAdapter.first_finish_reason e)
      (OpenAIAdapter.chat_stream_loop events) /\
    forall (earlier : list OpenAI.ChatChunk.t) (terminal : OpenAI.ChatChunk.t),
      events = (earlier ++ [terminal])%list ->
      Forall (fun e => OpenAIAdapter.first_finish_reason e = None) earlier ->
      Forall (fun c => ChatCompletionChunk.finishReason c = None /\
                       ChatCompletionChunk.usage c = None)
        (OpenAIAdapter.chat_stream_loop earlier) /\
      OpenAIAdapter.chat_stream_loop events
      = (OpenAIAdapter.chat_stream_loop earlier ++
         OpenAIAdapter.chat_stream_step terminal)%list /\
      (JS.opt_truthy (OpenAIAdapter.delta_content terminal) = true ->
       exists final,
         OpenAIAdapter.chat_stream_loop events
         = (OpenAIAdapter.chat_stream_loop earlier ++ [final])%list /\
         ChatCompletionChunk.finishReason final
         = OpenAIAdapter.first_finish_reason terminal /\
         ChatCompletionChunk.usage final = None).
Proof.
  intros events. split; [apply chat_stream_loop_origin |].
  intros earlier terminal -> Hearlier.
  rewrite StreamFacts.chat_stream_loop_app. simpl. rewrite app_nil_r.
  split; [| split; [reflexivity |]].
  - apply Forall_forall. intros c Hin. split.
    + pose proof (StreamFacts.chat_stream_loop_finish_reason _ Hearlier)
        as Hall.
      rewrite Forall_forall in Hall. now apply Hall.
    + pose proof (StreamFacts.chat_stream_loop_no_usage earlier) as Hall.
      rewrite Forall_forall in Hall. now apply Hall.
  - intros Htext.
    destruct (StreamFacts.chat_stream_step_cases terminal)
      as [[_ Hnone] | [final [Hstep H]]]; [congruence |].
    destruct H as (_ & _ & _ & _ & Hreason & Husage).
    exists final. rewrite Hstep. repeat split; assumption.
Qed.

(** The theorem at a stream whose last event carries text and the finish
    reason [length]. *)
Lemma stream_finish_reason_and_usage_witness :
  Forall (fun c => ChatCompletionChunk.finishReason c = None /\
                   ChatCompletionChunk.usage c = None)
    (OpenAIAdapter.chat_stream_loop Demo.hello_deltas) /\
  exists final,
    OpenAIAdapter.chat_stream_loop
      (Demo.hello_deltas ++ [Demo.closing_event])%list
    = (OpenAIAdapter.chat_stream_loop Demo.hello_deltas ++ [final])%list /\
    ChatCompletionChunk.finishReason final = Some "length" /\
    ChatCompletionChunk.usage final = None.
Proof.
  destruct (proj2 (stream_finish_reason_and_usage
                     (Demo.hello_deltas ++ [Demo.closing_event])%list)
              Demo.hello_deltas Demo.closing_event eq_refl)
    as (Hearlier & _ & Hfinal).
  - repeat constructor.
  - split; [exact Hearlier |]. exact (Hfinal eq_refl).
Defined.

(** The chunks of the stream that ends with a text-less terminal event:
    every one is without usage and carries the null finish reason of its
    event. *)
Example hello_stream_chunks :
  Forall (fun c => ChatCompletionChunk.usage c = None /\
                   ChatCompletionChunk.finishReason c = None)
    (OpenAIAdapter.chat_stream_loop Demo.hello_stream).
Proof. repeat constructor. Qed.

(** ** The roles of a message (claim C4) *)

(** C4, refuted as stated: no role of the unified [Message] is written
    [tool]. *)
Lemma message_has_no_tool_role :
  ~ exists r : Role, role_name r = "tool".
Proof. intros [[] H]; discriminate H. Qed.

(** C4, as the sources have it: a unified [Message] has one of the three
    roles [system], [user] and [assistant], none of them written [tool],
    and is made of its [role], its [content] and its optional [name]
    alone, so it carries neither a [toolCallId] nor tool calls.  The
    messages of the Anthropic test, written in the richer shape with a
    [tool] role, keep the invariant: the [tool] message carries a
    [toolCallId], here the id of the one tool call of the assistant
    message, and the ids of the tool calls of each message are pairwise
    different. *)
Theorem message_roles :
  (forall m : Message.t,
      Message.role m = system \/ Message.role m = user \/
      Message.role m = assistant) /\
  (forall r : Role, role_name r <> "tool") /\
  (forall m : Message.t,
      m = Message.mk (Message.role m) (Message.content m) (Message.name m)) /\
  forallb Anthropic.message_ok Anthropic.chat_messages = true /\
  map Anthropic.tool_call_ids Anthropic.chat_messages
  = [ []; ["call_weather"]; [] ] /\
  map Anthropic.Message.toolCallId Anthropic.chat_messages
  = [ None; None; Some "call_weather" ].
Proof.
  repeat split; try reflexivity.
  - intros m. destruct (Message.role m); auto.
  - intros [] H; discriminate H.
  - intros []; reflexivity.
Qed.

(** The invariant is not vacuous: a [tool] message without a
    [toolCallId] breaks it, and so does a repeated tool-call id. *)
Example message_ok_rejects :
  Anthropic.message_ok
    (Anthropic.Message.mk Anthropic.tool "72" None None None) = false /\
  Anthropic.message_ok
    (Anthropic.Message.mk Anthropic.assistant "" None
       (Some [ Anthropic.ToolCall.mk "a" (Anthropic.FunctionCall.mk "f" "{}");
               Anthropic.ToolCall.mk "a" (Anthropic.FunctionCall.mk "g" "{}") ])
       None) = false.
Proof. split; reflexivity. Qed.

(** ** The facade (claim C5) *)

(** C5, refuted as stated: [chatStream] does not hand the options on as
    they are.  Given options without a [stream] field, the adapter is
    called with [stream: true]; called directly with the same options it
    sees none.  [generateTextStream] overrides [stream: false] likewise. *)
Lemma facade_streams_set_the_flag :
  map ChatCompletionChunk.content
    (AIAdapter.chatCompletionStream Demo.spy Demo.chat_options)
  = ["stream: undefined"] /\
  map ChatCompletionChunk.content
    (AI.chatStream (AI.new Demo.spy) Demo.chat_options)
  = ["stream: true"] /\
  AI.chatStream (AI.new Demo.spy) Demo.chat_options
  <> AIAdapter.chatCompletionStream Demo.spy Demo.chat_options /\
  AIAdapter.generateTextStream Demo.spy Demo.unstreamed_text_options
  = ["stream: false"] /\
  AI.generateTextStream (AI.new Demo.spy) Demo.unstreamed_text_options
  = ["stream: true"].
Proof.
  repeat split; try reflexivity.
  intros H. discriminate H.
Qed.

(** C5, as the facade has it: for every adapter and every options
    object, [adapterName] is the adapter's name; [chat], [generateText],
    [summarize] and [embed] call the bound adapter with the options as
    they are and hand back what it returns; [chatStream] and
    [generateTextStream] call it with a copy of the options in which
    [stream] is [true] and every other field is unchanged, and yield what
    it yields.  [setAdapter] rebinds the facade. *)
Theorem facade_delegates :
  forall (F : Type -> Type) (a : AIAdapter.t F),
    AI.adapterName (AI.new a) = AIAdapter.name a /\
    (forall o, AI.chat (AI.new a) o = AIAdapter.chatCompletion a o) /\
    (forall o, AI.generateText (AI.new a) o = AIAdapter.generateText a o) /\
    (forall o, AI.summarize (AI.new a) o = AIAdapter.summarize a o) /\
    (forall o, AI.embed (AI.new a) o = AIAdapter.createEmbeddings a o) /\
    (forall o, exists o',
        AI.chatStream (AI.new a) o = AIAdapter.chatCompletionStream a o' /\
        ChatCompletionOptions.stream o' = Some true /\
        ChatCompletionOptions.model o' = ChatCompletionOptions.model o /\
        ChatCompletionOptions.messages o' = ChatCompletionOptions.messages o /\
        ChatCompletionOptions.temperature o'
        = ChatCompletionOptions.temperature o /\
        ChatCompletionOptions.maxTokens o' = ChatCompletionOptions.maxTokens o /\
        ChatCompletionOptions.topP o' = ChatCompletionOptions.topP o /\
        ChatCompletionOptions.frequencyPenalty o'
        = ChatCompletionOptions.frequencyPenalty o /\
        ChatCompletionOptions.presencePenalty o'
        = ChatCompletionOptions.presencePenalty o /\
        ChatCompletionOptions.stopSequences o'
        = ChatCompletionOptions.stopSequences o /\
        ChatCompletionOptions.metadata o' = ChatCompletionOptions.metadata o) /\
    (forall o, exists o',
        AI.generateTextStream (AI.new a) o
        = AIAdapter.generateTextStream a o' /\
        TextGenerationOptions.stream o' = Some true /\
        TextGenerationOptions.model o' = TextGenerationOptions.model o /\
        TextGenerationOptions.prompt o' = TextGenerationOptions.prompt o /\
        TextGenerationOptions.maxTokens o' = TextGenerationOptions.maxTokens o /\
        TextGenerationOptions.temperature o'
        = TextGenerationOptions.temperature o /\
        TextGenerationOptions.topP o' = TextGenerationOptions.topP o /\
        TextGenerationOptions.frequencyPenalty o'
        = TextGenerationOptions.frequencyPenalty o /\
        TextGenerationOptions.presencePenalty o'
        = TextGenerationOptions.presencePenalty o /\
        TextGenerationOptions.stopSequences o'
        = TextGenerationOptions.stopSequences o) /\
    (forall (self : AI.t F) (b : AIAdapter.t F),
        AI.adapter (AI.setAdapter self b) = b).
Proof.
  intros F a. repeat split.
  - intros o. exists (ChatCompletionOptions.with_stream true o).
    repeat split.
  - intros o. exists (TextGenerationOptions.with_stream true o).
    repeat split.
Qed.

(** The facade over the OpenAI adapter: a chat call through it is the
    adapter's own call. *)
Example facade_over_openai :
  AI.chat (AI.new (openai_adapter Demo.adapter)) Demo.chat_options
  = OpenAIAdapter.chatCompletion Demo.adapter Demo.chat_options.
Proof. reflexivity. Qed.

(** ** Structured output (claims C6 and C7) *)

(** C6: in schema-constrained mode, when the text of the response's
    sole text block does not parse as JSON, the extractor fails with a
    [StructuredOutputParseError] that carries that text; it does not
    return a result. *)
Theorem schema_mode_parse_error :
  forall (parse : string -> option JSON.value)
         (response : Anthropic.Response.t) (rawText : string),
    Anthropic.text_blocks (Anthropic.Response.content response) = [rawText] ->
    parse rawText = None ->
    Anthropic.structuredOutput parse Anthropic.SchemaConstrained response
    = Some (Threw (Anthropic.StructuredOutputParseError
                     "Failed to parse structured output JSON" rawText)) /\
    forall result,
      Anthropic.structuredOutput parse Anthropic.SchemaConstrained response
      <> Some (Returned result).
Proof.
  intros parse response rawText Hblock Hparse.
  unfold Anthropic.structuredOutput. rewrite Hblock, Hparse.
  split; [reflexivity | intros result H; discriminate H].
Qed.

(** The theorem at the malformed text of the test file. *)
Lemma schema_mode_parse_error_witness :
  JSON.parse "not valid json" = None /\
  Anthropic.structuredOutput JSON.parse Anthropic.SchemaConstrained
    Anthropic.malformed_response
  = Some (Threw (Anthropic.StructuredOutputParseError
                   "Failed to parse structured output JSON"
                   "not valid json")).
Proof.
  split; [reflexivity |].
  apply (schema_mode_parse_error JSON.parse Anthropic.malformed_response
           "not valid json"); reflexivity.
Defined.

(** The well-formed text of the test file is parsed, and kept as the raw
    text. *)
Example schema_mode_alice :
  Anthropic.structuredOutput JSON.parse Anthropic.SchemaConstrained
    Anthropic.alice_response
  = Some (Returned
            {| Anthropic.StructuredOutputResult.data :=
                 JSON.Object [("name", JSON.Str "Alice");
                              ("age", JSON.integer 30)];
               Anthropic.StructuredOutputResult.rawText :=
                 JSON.dq "{'name':'Alice','age':30}" |}).
Proof. reflexivity. Qed.

(** C7: in tool-use fallback mode, for a response whose sole content
    block is a tool invocation named [structured_output], the extractor
    returns the block's input as [data] and the JSON serialization of that
    input as [rawText].  The result is the same whatever [JSON.parse]
    does, so no text is parsed to obtain it; on the response of the test
    file it is the object of Bob and the text the test expects, even with
    a parser that accepts nothing. *)
Theorem tool_use_fallback_returns_input :
  (forall (parse : string -> option JSON.value) (id : string)
          (input : JSON.value),
      Anthropic.structuredOutput parse Anthropic.ToolUseFallback
        {| Anthropic.Response.content :=
             [ Anthropic.tool_use id "structured_output" input ] |}
      = Some (Returned
                {| Anthropic.StructuredOutputResult.data := input;
                   Anthropic.StructuredOutputResult.rawText :=
                     JSON.stringify input |})) /\
  Anthropic.structuredOutput (fun _ => None) Anthropic.ToolUseFallback
    Anthropic.tool_use_response
  = Some (Returned
            {| Anthropic.StructuredOutputResult.data := Anthropic.bob;
               Anthropic.StructuredOutputResult.rawText :=
                 JSON.dq "{'name':'Bob','age':25}" |}).
Proof. split; reflexivity. Qed.

(** ** Message translation (claim C8) *)

(** C8: the conversation of the test file is translated into exactly
    three turns, those the test expects.  The assistant turn is a text block
    followed by one tool-invocation block that carries the object parsed
    from the JSON text of the arguments; the sole block of the last turn
    is the tool result, tagged with the id of that tool call. *)
Theorem weather_conversation_translation :
  exists first second third,
    Anthropic.translate_messages JSON.parse Anthropic.chat_messages
    = Some [first; second; third] /\
    [first; second; third] = Anthropic.expected_payload_messages /\
    first = Anthropic.MessageParam.mk "user"
              (Anthropic.Scalar "What is the forecast?") /\
    JSON.parse Anthropic.toolArguments
    = Some (JSON.Object [("location", JSON.Str "Berlin")]) /\
    second = Anthropic.MessageParam.mk "assistant"
               (Anthropic.Blocks
                  [ Anthropic.text "Checking";
                    Anthropic.tool_use "call_weather" "lookup_weather"
                      (JSON.Object [("location", JSON.Str "Berlin")]) ]) /\
    third = Anthropic.MessageParam.mk "user"
              (Anthropic.Blocks
                 [ Anthropic.tool_result "call_weather"
                     (JSON.dq "{'temp':72}") ]) /\
    map Anthropic.tool_call_ids Anthropic.chat_messages
    = [ []; ["call_weather"]; [] ].
Proof.
  do 3 eexists. split; [vm_compute; reflexivity |].
  repeat split.
Qed.

(** A tool call with several arguments and an assistant message with two
    tool calls: the blocks keep the order of the calls. *)
Example two_tool_calls :
  Anthropic.translate_message JSON.parse
    (Anthropic.Message.mk Anthropic.assistant "On it" None
       (Some [ Anthropic.ToolCall.mk "c1"
                 (Anthropic.FunctionCall.mk "f" (JSON.dq "{'a':1,'b':[true,null]}"));
               Anthropic.ToolCall.mk "c2"
                 (Anthropic.FunctionCall.mk "g" "{}") ])
       None)
  = Some (Anthropic.MessageParam.mk "assistant"
            (Anthropic.Blocks
               [ Anthropic.text "On it";
                 Anthropic.tool_use "c1" "f"
                   (JSON.Object [("a", JSON.integer 1);
                                 ("b", JSON.Array [JSON.Bool true; JSON.Null])]);
                 Anthropic.tool_use "c2" "g" (JSON.Object []) ])).
Proof. vm_compute. reflexivity. Qed.

(** ** [JSON.parse] and [JSON.stringify] on the texts of the tests *)

Example parse_alice :
  JSON.parse (JSON.dq "{'name':'Alice','age':30}")
  = Some (JSON.Object [("name", JSON.Str "Alice"); ("age", JSON.integer 30)]).
Proof. reflexivity. Qed.

Example stringify_bob :
  JSON.stringify Anthropic.bob = JSON.dq "{'name':'Bob','age':25}".
Proof. reflexivity. Qed.

Example parse_stringify_bob :
  JSON.parse (JSON.stringify Anthropic.bob) = Some Anthropic.bob.
Proof. reflexivity. Qed.

Example parse_rejects :
  map JSON.parse ["not valid json"; ""; "nul"; "01"; "1."; "[1,]"; "{"]
  = [None; None; None; None; None; None; None].
Proof. reflexivity. Qed.

Example parse_numbers :
  map JSON.parse ["0"; "-12"; "2.50"; "1e2"; "15E-4"]
  = [ Some (JSON.Number 0 0); Some (JSON.Number (-12) 0);
      Some (JSON.Number 25 (-1)); Some (JSON.Number 100 0);
      Some (JSON.Number 15 (-4)) ].
Proof. reflexivity. Qed.

Example stringify_numbers :
  map JSON.stringify
    [JSON.Number 0 0; JSON.Number (-12) 0; JSON.Number 25 (-1);
     JSON.Number 15 (-4); JSON.Number (-5) (-2)]
  = ["0"; "-12"; "2.5"; "0.0015"; "-0.05"].
Proof. reflexivity. Qed.

(* ================================================================== *)
(** * Further properties of the OpenAI adapter *)

(** X1: a failure of the provider is passed on as it is.  When the SDK
    rejects the request of an operation with [error], the operation
    rejects with that same [error], and the one request it sent is the
    only one: nothing is retried, and nothing is turned into a result. *)
Theorem provider_errors_pass_through :
  forall (self : OpenAIAdapter.t) (log : list OpenAI.Request)
         (error : OpenAI.Error),
    (forall o,
        OpenAI.chat_create (OpenAIAdapter.client self)
          (OpenAIAdapter.chat_params o false) = inl error ->
        OpenAIAdapter.chatCompletion self o log
        = ((log ++ [OpenAI.ChatRequest (OpenAIAdapter.chat_params o false)])%list,
           Threw error)) /\
    (forall o,
        OpenAI.chat_create_stream (OpenAIAdapter.client self)
          (OpenAIAdapter.chat_params o true) = inl error ->
        OpenAIAdapter.chatCompletionStream self o log
        = ((log ++ [OpenAI.ChatRequest (OpenAIAdapter.chat_params o true)])%list,
           Threw error)) /\
    (forall o,
        OpenAI.completions_create (OpenAIAdapter.client self)
          (OpenAIAdapter.completion_params o false) = inl error ->
        OpenAIAdapter.generateText self o log
        = ((log ++ [OpenAI.CompletionRequest
                      (OpenAIAdapter.completion_params o false)])%list,
           Threw error)) /\
    (forall o,
        OpenAI.completions_create_stream (OpenAIAdapter.client self)
          (OpenAIAdapter.completion_params o true) = inl error ->
        OpenAIAdapter.generateTextStream self o log
        = ((log ++ [OpenAI.CompletionRequest
                      (OpenAIAdapter.completion_params o true)])%list,
           Threw error)) /\
    (forall o,
        OpenAI.chat_create (OpenAIAdapter.client self)
          (OpenAIAdapter.summarize_params o) = inl error ->
        OpenAIAdapter.summarize self o log
        = ((log ++ [OpenAI.ChatRequest (OpenAIAdapter.summarize_params o)])%list,
           Threw error)) /\
    (forall o,
        OpenAI.embeddings_create (OpenAIAdapter.client self)
          (OpenAIAdapter.embedding_params o) = inl error ->
        OpenAIAdapter.createEmbeddings self o log
        = ((log ++ [OpenAI.EmbeddingRequest
                      (OpenAIAdapter.embedding_params o)])%list,
           Threw error)).
Proof.
  intros self log error. repeat split; intros o Hreply.
  - unfold OpenAIAdapter.chatCompletion. cbv zeta. now rewrite Hreply.
  - unfold OpenAIAdapter.chatCompletionStream. cbv zeta. now rewrite Hreply.
  - unfold OpenAIAdapter.generateText. cbv zeta. now rewrite Hreply.
  - unfold OpenAIAdapter.generateTextStream. cbv zeta. now rewrite Hreply.
  - unfold OpenAIAdapter.summarize. cbv zeta. now rewrite Hreply.
  - unfold OpenAIAdapter.createEmbeddings. cbv zeta. now rewrite Hreply.
Qed.

(** The theorem at a provider that answers 401 to a chat call. *)
Lemma provider_errors_pass_through_witness :
  OpenAIAdapter.chatCompletion
    (Scenario.adapter_rejecting Scenario.unauthorized) Demo.chat_options []
  = ([OpenAI.ChatRequest (OpenAIAdapter.chat_params Demo.chat_options false)],
     Threw Scenario.unauthorized).
Proof.
  apply (proj1 (provider_errors_pass_through
                  (Scenario.adapter_rejecting Scenario.unauthorized) []
                  Scenario.unauthorized)).
  reflexivity.
Defined.

(** X2: an answer without choices.  [chatCompletion], [generateText] and
    [summarize] read the first choice of the answer without checking that
    there is one: when the provider's answer has no choice they reject
    with a [TypeError], after the request has been sent.  The streaming
    loops test for the choice instead, and skip an event that has none. *)
Theorem answers_without_choices :
  forall (self : OpenAIAdapter.t) (log : list OpenAI.Request),
    (forall o response,
        OpenAI.chat_create (OpenAIAdapter.client self)
          (OpenAIAdapter.chat_params o false) = inr response ->
        OpenAI.ChatCompletion.choices response = [] ->
        exists what,
          OpenAIAdapter.chatCompletion self o log
          = ((log ++ [OpenAI.ChatRequest
                        (OpenAIAdapter.chat_params o false)])%list,
             Threw (OpenAI.TypeError what))) /\
    (forall o response,
        OpenAI.completions_create (OpenAIAdapter.client self)
          (OpenAIAdapter.completion_params o false) = inr response ->
        OpenAI.Completion.choices response = [] ->
        exists what,
          OpenAIAdapter.generateText self o log
          = ((log ++ [OpenAI.CompletionRequest
                        (OpenAIAdapter.completion_params o false)])%list,
             Threw (OpenAI.TypeError what))) /\
    (forall o response,
        OpenAI.chat_create (OpenAIAdapter.client self)
          (OpenAIAdapter.summarize_params o) = inr response ->
        OpenAI.ChatCompletion.choices response = [] ->
        exists what,
          OpenAIAdapter.summarize self o log
          = ((log ++ [OpenAI.ChatRequest
                        (OpenAIAdapter.summarize_params o)])%list,
             Threw (OpenAI.TypeError what))) /\
    (forall events,
        Forall (fun e => OpenAI.ChatChunk.choices e = []) events ->
        OpenAIAdapter.chat_stream_loop events = []) /\
    (forall events,
        Forall (fun e => OpenAI.Completion.choices e = []) events ->
        OpenAIAdapter.text_stream_loop events = []).
Proof.
  intros self log. repeat split.
  - intros o response Hreply Hnone.
    unfold OpenAIAdapter.chatCompletion. cbv zeta.
    rewrite Hreply, request_answered, Hnone. eexists. reflexivity.
  - intros o response Hreply Hnone.
    unfold OpenAIAdapter.generateText. cbv zeta.
    rewrite Hreply, request_answered, Hnone. eexists. reflexivity.
  - intros o response Hreply Hnone.
    unfold OpenAIAdapter.summarize. cbv zeta.
    rewrite Hreply, request_answered, Hnone. eexists. reflexivity.
  - induction 1 as [|e events He _ IH]; simpl; [reflexivity |].
    unfold OpenAIAdapter.chat_stream_step, OpenAIAdapter.first_delta.
    now rewrite He, IH.
  - induction 1 as [|e events He _ IH]; simpl; [reflexivity |].
    unfold OpenAIAdapter.text_stream_step. now rewrite He, IH.
Qed.

(** The theorem at a provider whose answers have no choice. *)
Lemma answers_without_choices_witness :
  (exists what,
      OpenAIAdapter.chatCompletion Scenario.adapter_choiceless
        Demo.chat_options []
      = ([OpenAI.ChatRequest
            (OpenAIAdapter.chat_params Demo.chat_options false)],
         Threw (OpenAI.TypeError what))) /\
  outcome_of (OpenAIAdapter.chatCompletionStream Scenario.adapter_choiceless
                Demo.chat_options)
  = Returned [].
Proof.
  split.
  - apply (proj1 (answers_without_choices Scenario.adapter_choiceless [])
             Demo.chat_options Scenario.no_choice_completion);
      reflexivity.
  - reflexivity.
Defined.

(** X3: what [chatCompletionStream] yields.  Every chunk has a
    non-empty [content] and no [usage], and is built from one event of
    the stream: its [content] is the text delta of that event's first
    choice, and its [id], [model] and [finishReason] are that event's.
    There are at most as many chunks as events. *)
Theorem chat_chunks_come_from_text_events :
  forall events : list OpenAI.ChatChunk.t,
    Forall
      (fun c =>
         JS.truthy (ChatCompletionChunk.content c) = true /\
         ChatCompletionChunk.usage c = None /\
         exists e,
           In e events /\
           OpenAIAdapter.delta_content e
           = Some (ChatCompletionChunk.content c) /\
           ChatCompletionChunk.id c = OpenAI.ChatChunk.id e /\
           ChatCompletionChunk.model c = OpenAI.ChatChunk.model e /\
           ChatCompletionChunk.finishReason c
           = OpenAIAdapter.first_finish_reason e)
      (OpenAIAdapter.chat_stream_loop events) /\
    length (OpenAIAdapter.chat_stream_loop events) <= length events.
Proof.
  induction events as [|e events [IHall IHlen]]; simpl.
  - split; [constructor | lia].
  - destruct (StreamFacts.chat_stream_step_cases e)
      as [[-> _] | [c [-> H]]]; simpl.
    + split; [| lia].
      eapply Forall_impl; [| exact IHall].
      intros c (Ht & Hu & e' & Hin & H'). repeat split; try assumption.
      exists e'. split; [now right | exact H'].
    + split; [| lia].
      destruct H as (Htext & Hcontent & Hid & Hmodel & Hreason & Husage).
      constructor.
      * repeat split; try assumption.
        -- rewrite <- Hcontent in Htext. exact Htext.
        -- exists e. repeat split; auto.
      * eapply Forall_impl; [| exact IHall].
        intros c' (Ht & Hu & e' & Hin & H'). repeat split; try assumption.
        exists e'. split; [now right | exact H'].
Qed.

(** The items of the text loop put together are the texts of the first
    choices put together. *)
Lemma text_stream_loop_text (events : list OpenAI.Completion.t) :
  JS.concat_all (OpenAIAdapter.text_stream_loop events)
  = JS.concat_all (map first_text events).
Proof.
  induction events as [|e events IH]; simpl; [reflexivity |].
  unfold OpenAIAdapter.text_stream_step, first_text.
  destruct (OpenAI.Completion.choices e) as [|choice rest]; simpl;
    [exact IH |].
  destruct (OpenAI.TextChoice.text choice) as [|a s]; simpl;
    [exact IH | now rewrite IH].
Qed.

(** X4: what [generateTextStream] yields.  No item is empty, there are
    at most as many items as events, and the items put together are the
    texts of the first choices of the events put together: the loop drops
    nothing but empty text. *)
Theorem text_stream_keeps_the_text :
  forall events : list OpenAI.Completion.t,
    Forall (fun s => JS.truthy s = true)
      (OpenAIAdapter.text_stream_loop events) /\
    length (OpenAIAdapter.text_stream_loop events) <= length events /\
    JS.concat_all (OpenAIAdapter.text_stream_loop events)
    = JS.concat_all (map first_text events).
Proof.
  induction events as [|e events (IHall & IHlen & IHtext)]; simpl.
  - repeat split; [constructor | lia].
  - unfold OpenAIAdapter.text_stream_step, first_text.
    destruct (OpenAI.Completion.choices e) as [|choice rest]; simpl.
    + repeat split; [assumption | lia | assumption].
    + destruct (JS.truthy (OpenAI.TextChoice.text choice)) eqn:Ht; simpl.
      * repeat split; [now constructor | lia | now rewrite IHtext].
      * repeat split; [assumption | lia |].
        destruct (OpenAI.TextChoice.text choice); [| discriminate Ht].
        exact IHtext.
Qed.

(** X5: streamed and plain text generation agree.  When the provider
    answers the plain request with a completion that has a choice, and
    the streamed one with events whose first-choice texts add up to the
    text of that choice, both operations return and the items of
    [generateTextStream] add up to the [text] of [generateText]. *)
Theorem streamed_text_matches :
  forall (self : OpenAIAdapter.t) (o : TextGenerationOptions.t)
         (log : list OpenAI.Request)
         (response : OpenAI.Completion.t)
         (events : list OpenAI.Completion.t),
    OpenAI.completions_create (OpenAIAdapter.client self)
      (OpenAIAdapter.completion_params o false) = inr response ->
    OpenAI.completions_create_stream (OpenAIAdapter.client self)
      (OpenAIAdapter.completion_params o true) = inr events ->
    OpenAI.Completion.choices response <> [] ->
    JS.concat_all (map first_text events) = first_text response ->
    exists result items,
      snd (OpenAIAdapter.generateText self o log) = Returned result /\
      snd (OpenAIAdapter.generateTextStream self o log) = Returned items /\
      JS.concat_all items = TextGenerationResult.text result.
Proof.
  intros self o log response events Hplain Hstream Hchoice Htext.
  unfold OpenAIAdapter.generateText, OpenAIAdapter.generateTextStream.
  cbv zeta. rewrite Hplain, Hstream, !request_answered.
  unfold first_text in Htext at 2.
  destruct (OpenAI.Completion.choices response) as [|choice rest];
    [contradiction |].
  do 2 eexists. repeat split. simpl.
  now rewrite text_stream_loop_text.
Qed.

(** The theorem at the provider that answers [Hello]. *)
Lemma streamed_text_matches_witness :
  exists result items,
    snd (OpenAIAdapter.generateText Demo.adapter Scenario.text_options [])
    = Returned result /\
    snd (OpenAIAdapter.generateTextStream Demo.adapter Scenario.text_options [])
    = Returned items /\
    JS.concat_all items = TextGenerationResult.text result.
Proof.
  apply (streamed_text_matches Demo.adapter Scenario.text_options []
           Demo.hello_text [Demo.hello_text]).
  - reflexivity.
  - reflexivity.
  - discriminate.
  - reflexivity.
Defined.

(** X6: the adapter never reads [options.stream] or [options.metadata].
    Whatever these two fields hold, each chat operation behaves the same,
    and so does each text operation whatever [stream] holds: whether a
    request is streamed is decided by the operation that is called.
    Hence the facade, which sets [stream: true] before it calls the
    streaming operations, is indistinguishable from the OpenAI adapter it
    is bound to. *)
Theorem adapter_ignores_stream_and_metadata :
  forall self : OpenAIAdapter.t,
    (forall model messages temperature maxTokens topP frequencyPenalty
            presencePenalty stopSequences stream metadata stream' metadata',
        let o := ChatCompletionOptions.mk model messages temperature
                   maxTokens topP frequencyPenalty presencePenalty
                   stopSequences stream metadata in
        let o' := ChatCompletionOptions.mk model messages temperature
                    maxTokens topP frequencyPenalty presencePenalty
                    stopSequences stream' metadata' in
        OpenAIAdapter.chatCompletion self o
        = OpenAIAdapter.chatCompletion self o' /\
        OpenAIAdapter.chatCompletionStream self o
        = OpenAIAdapter.chatCompletionStream self o') /\
    (forall model prompt maxTokens temperature topP frequencyPenalty
            presencePenalty stopSequences stream stream',
        let o := TextGenerationOptions.mk model prompt maxTokens
                   temperature topP frequencyPenalty presencePenalty
                   stopSequences stream in
        let o' := TextGenerationOptions.mk model prompt maxTokens
                    temperature topP frequencyPenalty presencePenalty
                    stopSequences stream' in
        OpenAIAdapter.generateText self o
        = OpenAIAdapter.generateText self o' /\
        OpenAIAdapter.generateTextStream self o
        = OpenAIAdapter.generateTextStream self o') /\
    (forall o,
        AI.chatStream (AI.new (openai_adapter self)) o
        = OpenAIAdapter.chatCompletionStream self o) /\
    (forall o,
        AI.generateTextStream (AI.new (openai_adapter self)) o
        = OpenAIAdapter.generateTextStream self o).
Proof.
  intros self. repeat split; reflexivity.
Qed.

(** X7: the result of [chatCompletion].  When the provider answers with
    a completion, the result is built from its first choice alone: the
    content is that choice's text, the empty string when the provider
    sent [null]; the finish reason is that choice's; the token counts are
    the provider's, and all zero when it sent no usage. *)
Theorem chat_result_of_first_choice :
  forall (self : OpenAIAdapter.t) (o : ChatCompletionOptions.t)
         (log : list OpenAI.Request) (response : OpenAI.ChatCompletion.t)
         (choice : OpenAI.ChatChoice.t) (others : list OpenAI.ChatChoice.t),
    OpenAI.chat_create (OpenAIAdapter.client self)
      (OpenAIAdapter.chat_params o false) = inr response ->
    OpenAI.ChatCompletion.choices response = choice :: others ->
    exists result,
      OpenAIAdapter.chatCompletion self o log
      = ((log ++ [OpenAI.ChatRequest (OpenAIAdapter.chat_params o false)])%list,
         Returned result) /\
      ChatCompletionResult.content result
      = match OpenAI.ChatChoice.message_content choice with
        | Some text => text
        | None => ""
        end /\
      ChatCompletionResult.finishReason result
      = OpenAI.ChatChoice.finish_reason choice /\
      ChatCompletionResult.role result = assistant /\
      ChatCompletionResult.id result = OpenAI.ChatCompletion.id response /\
      ChatCompletionResult.model result
      = OpenAI.ChatCompletion.model response /\
      ChatCompletionResult.usage result
      = match OpenAI.ChatCompletion.usage response with
        | Some u =>
            Usage.mk (OpenAI.CompletionUsage.prompt_tokens u)
              (OpenAI.CompletionUsage.completion_tokens u)
              (OpenAI.CompletionUsage.total_tokens u)
        | None => Usage.mk 0 0 0
        end.
Proof.
  intros self o log response choice others Hreply Hchoices.
  unfold OpenAIAdapter.chatCompletion. cbv zeta.
  rewrite Hreply, request_answered, Hchoices.
  eexists. split; [reflexivity |]. simpl. repeat split.
  - destruct (OpenAI.ChatChoice.message_content choice) as [[|a s]|];
      reflexivity.
  - destruct (OpenAI.ChatCompletion.usage response) as [u|]; [| reflexivity].
    simpl. unfold JS.number_or_zero, JS.truthy_number.
    f_equal;
      match goal with
      | |- (if negb (?z =? 0)%Z then _ else _) = _ =>
          destruct (Z.eqb_spec z 0) as [-> |]; reflexivity
      end.
Qed.

(** The theorem at the provider that answers [Hello]. *)
Lemma chat_result_of_first_choice_witness :
  exists result,
    OpenAIAdapter.chatCompletion Demo.adapter Demo.chat_options []
    = ([OpenAI.ChatRequest (OpenAIAdapter.chat_params Demo.chat_options false)],
       Returned result) /\
    ChatCompletionResult.content result = "Hello" /\
    ChatCompletionResult.usage result = Usage.mk 3 1 4.
Proof.
  destruct (chat_result_of_first_choice Demo.adapter Demo.chat_options []
              Demo.hello_completion
              (OpenAI.ChatChoice.mk (Some "Hello") (Some "stop")) []
              eq_refl eq_refl)
    as [result (Hrun & Hcontent & _ & _ & _ & _ & Husage)].
  exists result. repeat split; assumption.
Defined.

(** X8: the edges of the summarization prompt.  An empty [focus] list
    gives the prompt of a call without [focus], and a [maxLength] of zero
    gives the prompt of a call without [maxLength]; the zero is still sent
    as [max_tokens].  Every prompt starts with the same sentence, followed
    by the sentence of the style; with a focus that is not empty and a
    [maxLength] that is a safe integer other than zero, the aspects and
    the bound follow, in this order. *)
Theorem summarization_prompt_edges :
  (forall model text maxLength style,
      OpenAIAdapter.buildSummarizationPrompt
        (SummarizationOptions.mk model text maxLength style (Some []))
      = OpenAIAdapter.buildSummarizationPrompt
          (SummarizationOptions.mk model text maxLength style None)) /\
  (forall model text style focus,
      OpenAIAdapter.buildSummarizationPrompt
        (SummarizationOptions.mk model text (Some 0%Z) style focus)
      = OpenAIAdapter.buildSummarizationPrompt
          (SummarizationOptions.mk model text None style focus) /\
      OpenAI.ChatParams.max_tokens
        (OpenAIAdapter.summarize_params
           (SummarizationOptions.mk model text (Some 0%Z) style focus))
      = Some 0%Z) /\
  (forall o, exists rest,
      OpenAIAdapter.buildSummarizationPrompt o
      = "You are a professional summarizer. " ++
        OpenAIAdapter.style_sentence (SummarizationOptions.style o) ++ rest) /\
  (forall o aspect aspects n,
      SummarizationOptions.focus o = Some (aspect :: aspects) ->
      SummarizationOptions.maxLength o = Some n ->
      n <> 0%Z ->
      JS.safe_integer n = true ->
      OpenAIAdapter.buildSummarizationPrompt o
      = "You are a professional summarizer. " ++
        OpenAIAdapter.style_sentence (SummarizationOptions.style o) ++
        "Focus on the following aspects: " ++
        JS.join ", " (aspect :: aspects) ++ ". " ++
        "Keep the summary under " ++ JS.number_to_string n ++ " tokens. ").
Proof.
  repeat split.
  - intros o. eexists.
    unfold OpenAIAdapter.buildSummarizationPrompt. cbv zeta.
    rewrite !append_assoc. reflexivity.
  - intros o aspect aspects n Hfocus Hlength Hn _.
    unfold OpenAIAdapter.buildSummarizationPrompt. cbv zeta.
    rewrite Hfocus, Hlength.
    unfold OpenAIAdapter.focus_sentence, OpenAIAdapter.length_sentence,
      JS.truthy_number.
    destruct (Z.eqb_spec n 0) as [-> | _]; [contradiction |].
    cbn [negb]. now rewrite !append_assoc.
Qed.

(** The theorem at a call with two aspects and a bound of 150 tokens. *)
Lemma summarization_prompt_edges_witness :
  OpenAIAdapter.buildSummarizationPrompt
    (SummarizationOptions.mk "gpt-4" "A long text" (Some 150%Z)
       (Some paragraph) (Some ["cost"; "risk"]))
  = "You are a professional summarizer. " ++
    "Provide a summary in paragraph format. " ++
    "Focus on the following aspects: " ++ "cost, risk" ++ ". " ++
    "Keep the summary under " ++ "150" ++ " tokens. ".
Proof.
  apply (proj2 (proj2 (proj2 summarization_prompt_edges))
           (SummarizationOptions.mk "gpt-4" "A long text" (Some 150%Z)
              (Some paragraph) (Some ["cost"; "risk"]))
           "cost" ["risk"] 150%Z eq_refl eq_refl).
  - discriminate.
  - reflexivity.
Defined.

(* ================================================================== *)
(** * Further properties of the facade *)

(** X9: the last adapter bound is the one in use.  After any sequence
    of [setAdapter] calls the facade holds the adapter of the last call,
    and its name and every operation are that adapter's; the adapters
    bound before leave no trace. *)
Theorem last_adapter_wins :
  forall (F : Type -> Type) (self : AI.t F)
         (swaps : list (AIAdapter.t F)) (last : AIAdapter.t F),
    let rebound := fold_left (@AI.setAdapter F) (swaps ++ [last])%list self in
    AI.adapter rebound = last /\
    AI.adapterName rebound = AIAdapter.name last /\
    (forall o, AI.chat rebound o = AIAdapter.chatCompletion last o) /\
    (forall o, AI.generateText rebound o = AIAdapter.generateText last o) /\
    (forall o, AI.summarize rebound o = AIAdapter.summarize last o) /\
    (forall o, AI.embed rebound o = AIAdapter.createEmbeddings last o) /\
    (forall o, AI.chatStream rebound o
               = AIAdapter.chatCompletionStream last
                   (ChatCompletionOptions.with_stream true o)) /\
    (forall o, AI.generateTextStream rebound o
               = AIAdapter.generateTextStream last
                   (TextGenerationOptions.with_stream true o)).
Proof.
  intros F self swaps last rebound.
  assert (Hlast : AI.adapter rebound = last).
  { subst rebound. now rewrite fold_left_app. }
  unfold AI.adapterName, AI.chat, AI.generateText, AI.summarize, AI.embed,
    AI.chatStream, AI.generateTextStream.
  rewrite Hlast. repeat split.
Qed.

(* ================================================================== *)
(** * Properties of the command-line helpers *)

Module UtilsFacts.
Import Utils.

Lemma lower_idem (c : ascii) : lower (lower c) = lower c.
Proof.
  destruct c as [[] [] [] [] [] [] [] []]; reflexivity.
Qed.

Lemma toLowerCase_idem (s : string) :
  toLowerCase (toLowerCase s) = toLowerCase s.
Proof.
  induction s as [|c s IH]; simpl; [reflexivity |].
  now rewrite lower_idem, IH.
Qed.

(** A name with a capital letter is the lower case of no string. *)
Lemma not_lowered (s name : string) :
  toLowerCase name <> name -> toLowerCase s <> name.
Proof.
  intros Hname Hs. apply Hname. rewrite <- Hs. apply toLowerCase_idem.
Qed.

Lemma length_append (a b : string) :
  String.length (a ++ b) = String.length a + String.length b.
Proof. induction a as [|c a IH]; simpl; [reflexivity | now rewrite IH]. Qed.

Lemma substring_prefix (a r : string) :
  substring 0 (String.length a) (a ++ r) = a.
Proof.
  induction a as [|c a IH]; simpl.
  - destruct r; reflexivity.
  - now rewrite IH.
Qed.

Lemma substring_skip (a r : string) (n : nat) :
  substring (String.length a) n (a ++ r) = substring 0 n r.
Proof. induction a as [|c a IH]; simpl; [reflexivity | exact IH]. Qed.

Lemma substring_whole (s : string) : substring 0 (String.length s) s = s.
Proof.
  induction s as [|c s IH]; simpl; [reflexivity | now rewrite IH].
Qed.

Lemma length_substring (s : string) :
  forall n m, n + m <= String.length s ->
              String.length (substring n m s) = m.
Proof.
  induction s as [|c s IH]; intros n m H; simpl in *.
  - assert (n = 0) by lia. assert (m = 0) by lia. now subst.
  - destruct n as [|n].
    + destruct m as [|m]; simpl; [reflexivity |].
      rewrite IH; [reflexivity | lia].
    + apply IH. lia.
Qed.

End UtilsFacts.

(** X10: [getApiKeyUrl] does not depend on the letter case of the
    provider.  For the four providers it gives their page; for
    [constructor] and [__proto__], in any letter case, it gives back what
    the table inherits under that name, which is not a string; for every
    other name it gives the empty string. *)
Theorem getApiKeyUrl_cases :
  forall provider : string,
    Utils.getApiKeyUrl (Utils.toLowerCase provider)
    = Utils.getApiKeyUrl provider /\
    let key := Utils.toLowerCase provider in
    (key = "openai" /\
     Utils.getApiKeyUrl provider
     = Utils.Url "https://platform.openai.com/api-keys") \/
    (key = "anthropic" /\
     Utils.getApiKeyUrl provider
     = Utils.Url "https://console.anthropic.com/settings/keys") \/
    (key = "gemini" /\
     Utils.getApiKeyUrl provider
     = Utils.Url "https://aistudio.google.com/app/apikey") \/
    (key = "ollama" /\
     Utils.getApiKeyUrl provider = Utils.Url "https://ollama.ai/download") \/
    ((key = "constructor" \/ key = "__proto__") /\
     Utils.getApiKeyUrl provider = Utils.NotAString key) \/
    (Utils.own_property key Utils.API_KEY_URLS = None /\
     key <> "constructor" /\ key <> "__proto__" /\
     Utils.getApiKeyUrl provider = Utils.Url "").
Proof.
  intros provider. split.
  - unfold Utils.getApiKeyUrl. now rewrite UtilsFacts.toLowerCase_idem.
  - intros key. unfold Utils.getApiKeyUrl. fold key.
    unfold Utils.get, Utils.own_property, Utils.API_KEY_URLS.
    destruct (String.eqb_spec key "openai") as [H|_]; [now left |].
    destruct (String.eqb_spec key "anthropic") as [H|_];
      [right; now left |].
    destruct (String.eqb_spec key "gemini") as [H|_];
      [right; right; now left |].
    destruct (String.eqb_spec key "ollama") as [H|_];
      [right; right; right; now left |].
    do 4 right. unfold Utils.Object_prototype, existsb.
    destruct (String.eqb_spec key "constructor") as [H|Hconstructor];
      [left; split; [now left | reflexivity] |].
    destruct (String.eqb_spec key "__proto__") as [H|Hproto];
      [left; split; [now right | reflexivity] |].
    repeat match goal with
           | |- context [String.eqb key ?name] =>
               destruct (String.eqb_spec key name) as [H|_];
               [exfalso; revert H; apply UtilsFacts.not_lowered;
                discriminate |]
           end.
    right. repeat split; assumption.
Qed.

(** Providers in the letter cases a user may type. *)
Example getApiKeyUrl_examples :
  map Utils.getApiKeyUrl ["OpenAI"; "GEMINI"; "mistral"; ""; "Constructor"]
  = [ Utils.Url "https://platform.openai.com/api-keys";
      Utils.Url "https://aistudio.google.com/app/apikey";
      Utils.Url ""; Utils.Url ""; Utils.NotAString "constructor" ].
Proof. reflexivity. Qed.

(** ASCII texts put together. *)
Lemma ascii_text_append (a b : string) :
  Utils.ascii_text (a ++ b)
  = Utils.ascii_text a && Utils.ascii_text b.
Proof.
  unfold Utils.ascii_text.
  induction a as [|c a IH]; simpl; [reflexivity |].
  now rewrite IH, andb_assoc.
Qed.

(** X11: [maskApiKey] shows nothing of a short key and a fixed shape of
    any key.  An ASCII key of fewer than eight characters, the empty one
    included, is masked as three stars; the mask of any ASCII key is three
    or eleven characters long, whatever the length of the key. *)
Theorem maskApiKey_short_keys :
  (forall apiKey,
      Utils.ascii_text apiKey = true ->
      String.length apiKey < 8 ->
      Utils.maskApiKey apiKey = Some "***") /\
  (forall apiKey,
      Utils.ascii_text apiKey = true ->
      exists mask,
        Utils.maskApiKey apiKey = Some mask /\
        (String.length mask = 3 \/ String.length mask = 11)).
Proof.
  split.
  - intros apiKey Hascii Hshort. unfold Utils.maskApiKey.
    apply Nat.ltb_lt in Hshort. rewrite Hascii, Hshort.
    now rewrite orb_true_r.
  - intros apiKey Hascii. unfold Utils.maskApiKey. rewrite Hascii.
    eexists. split; [reflexivity |].
    destruct (negb (JS.truthy apiKey) ||
              (String.length apiKey <? 8)%nat) eqn:Hcase;
      [now left | right].
    apply orb_false_iff in Hcase as [_ Hlong].
    apply Nat.ltb_ge in Hlong.
    rewrite !UtilsFacts.length_append, !UtilsFacts.length_substring;
      simpl; lia.
Qed.

(** The theorem at a key of seven characters. *)
Lemma maskApiKey_short_keys_witness :
  Utils.maskApiKey "sk-1234" = Some "***".
Proof.
  apply (proj1 maskApiKey_short_keys "sk-1234").
  - reflexivity.
  - simpl. lia.
Defined.

(** X12: of an ASCII key of eight characters or more, [maskApiKey]
    shows the first four and the last four characters and nothing of what
    lies between them: two keys with the same ends have the same mask.  Of
    a key of exactly eight characters it therefore shows every
    character. *)
Theorem maskApiKey_shows_the_ends :
  forall first middle last : string,
    Utils.ascii_text first = true ->
    Utils.ascii_text middle = true ->
    Utils.ascii_text last = true ->
    String.length first = 4 ->
    String.length last = 4 ->
    Utils.maskApiKey (first ++ middle ++ last)
    = Some (first ++ "..." ++ last) /\
    Utils.maskApiKey (first ++ last) = Some (first ++ "..." ++ last) /\
    forall middle',
      Utils.ascii_text middle' = true ->
      Utils.maskApiKey (first ++ middle' ++ last)
      = Utils.maskApiKey (first ++ middle ++ last).
Proof.
  assert (Hmask : forall first middle last,
             Utils.ascii_text first = true ->
             Utils.ascii_text middle = true ->
             Utils.ascii_text last = true ->
             String.length first = 4 -> String.length last = 4 ->
             Utils.maskApiKey (first ++ middle ++ last)
             = Some (first ++ "..." ++ last)).
  { intros first middle last Hf Hm Hl Hfirst Hlast.
    unfold Utils.maskApiKey.
    rewrite !ascii_text_append, Hf, Hm, Hl. cbn [andb]. f_equal.
    assert (Hlen : String.length (first ++ middle ++ last)
                   = 4 + String.length middle + 4)
      by (rewrite !UtilsFacts.length_append; lia).
    destruct (negb (JS.truthy (first ++ middle ++ last)) ||
              (String.length (first ++ middle ++ last) <? 8)%nat) eqn:Hcase.
    - apply orb_true_iff in Hcase as [Hempty | Hshort].
      + destruct first; [discriminate Hfirst | discriminate Hempty].
      + apply Nat.ltb_lt in Hshort. lia.
    - f_equal; [| f_equal].
      + rewrite <- Hfirst at 1. apply UtilsFacts.substring_prefix.
      + rewrite Hlen.
        replace (4 + String.length middle + 4 - 4)
          with (String.length (first ++ middle))
          by (rewrite UtilsFacts.length_append; lia).
        rewrite <- (append_assoc first middle last).
        rewrite UtilsFacts.substring_skip.
        rewrite <- Hlast at 1. apply UtilsFacts.substring_whole. }
  intros first middle last Hf Hm Hl Hfirst Hlast. repeat split.
  - now apply Hmask.
  - exact (Hmask first "" last Hf eq_refl Hl Hfirst Hlast).
  - intros middle' Hm'. now rewrite !Hmask.
Qed.

(** The theorem at an OpenAI-style key. *)
Lemma maskApiKey_shows_the_ends_witness :
  Utils.maskApiKey ("sk-a" ++ "bcdefghijkl" ++ "mnop")
  = Some "sk-a...mnop".
Proof.
  apply (proj1 (maskApiKey_shows_the_ends "sk-a" "bcdefghijkl" "mnop"
                  eq_refl eq_refl eq_refl eq_refl eq_refl)).
Defined.

(** A key with a character outside ASCII is not covered. *)
Example maskApiKey_not_covered :
  Utils.maskApiKey (String (ascii_of_N 195) (String (ascii_of_N 177)
                                               "2345678")) = None.
Proof. reflexivity. Qed.

(** ** [validateApiKey] *)

(** X13: a provider that [validateApiKey] does not know is refused
    without a call.  When the lowered provider name is none of [openai],
    [anthropic], [gemini] and [ollama], that is, when it is no key of
    [API_KEY_URLS], the function returns [false] and the adapter is not
    called at all. *)
Theorem validateApiKey_unknown_provider :
  forall (R E : Type) (message : E -> option string)
         (adapter : AIAdapter.t (Eff R E)) (provider : string)
         (log : list R),
    Utils.own_property (Utils.toLowerCase provider) Utils.API_KEY_URLS
    = None ->
    Utils.validateApiKey message adapter provider log
    = (log, Returned false).
Proof.
  intros R E message adapter provider log Hunknown.
  unfold Utils.validateApiKey, Utils.try_catch.
  revert Hunknown.
  unfold Utils.own_property, Utils.API_KEY_URLS.
  destruct (String.eqb (Utils.toLowerCase provider) "openai");
    [discriminate |].
  destruct (String.eqb (Utils.toLowerCase provider) "anthropic");
    [discriminate |].
  destruct (String.eqb (Utils.toLowerCase provider) "gemini");
    [discriminate |].
  destruct (String.eqb (Utils.toLowerCase provider) "ollama");
    [discriminate |].
  reflexivity.
Qed.

(** The theorem at a provider the table does not have; the adapter
    would have rejected the call. *)
Lemma validateApiKey_unknown_provider_witness :
  Utils.validateApiKey Scenario.error_message
    (openai_adapter (Scenario.adapter_rejecting Scenario.unreachable))
    "Mistral" []
  = ([], Returned false).
Proof.
  apply (validateApiKey_unknown_provider OpenAI.Request OpenAI.Error
           Scenario.error_message
           (openai_adapter (Scenario.adapter_rejecting Scenario.unreachable))
           "Mistral" []).
  reflexivity.
Defined.

(** X14: the verdict on a hosted provider.  For [openai], [anthropic]
    and [gemini], in any letter case, [validateApiKey] makes one call of
    [chatCompletion], with the single message [Hi] and [maxTokens] 1, and
    does nothing else.  It returns [true] exactly when that call returns;
    when the call rejects with an error whose message holds [401], [403],
    [API key], [authentication], [Invalid] or [Incorrect] it returns
    [false]; any other error it rejects with, unchanged. *)
Theorem validateApiKey_hosted_provider :
  forall (R E : Type) (message : E -> option string)
         (adapter : AIAdapter.t (Eff R E)) (provider : string)
         (log : list R),
    In (Utils.toLowerCase provider) ["openai"; "anthropic"; "gemini"] ->
    Utils.validateApiKey message adapter provider log
    = match AIAdapter.chatCompletion adapter
              (Utils.test_request (Utils.test_model provider)) log with
      | (log', Returned _) => (log', Returned true)
      | (log', Threw error) =>
          if Utils.is_auth_error message error
          then (log', Returned false)
          else (log', Threw error)
      end.
Proof.
  intros R E message adapter provider log Hhosted.
  unfold Utils.validateApiKey, Utils.try_catch.
  assert (Hcase :
            String.eqb (Utils.toLowerCase provider) "openai" ||
            String.eqb (Utils.toLowerCase provider) "anthropic" ||
            String.eqb (Utils.toLowerCase provider) "gemini" = true).
  { destruct Hhosted as [<- | [<- | [<- | []]]]; reflexivity. }
  rewrite Hcase. unfold bind, ret, throw.
  destruct (AIAdapter.chatCompletion adapter
              (Utils.test_request (Utils.test_model provider)) log)
    as [log' [result | error]]; [reflexivity |].
  destruct (Utils.is_auth_error message error); reflexivity.
Qed.

(** The theorem at a provider that answers 401: the key is reported
    invalid, after the one request. *)
Lemma validateApiKey_hosted_provider_witness :
  Utils.validateApiKey Scenario.error_message
    (openai_adapter (Scenario.adapter_rejecting Scenario.unauthorized))
    "OpenAI" []
  = ([ OpenAI.ChatRequest
         (OpenAIAdapter.chat_params (Utils.test_request "gpt-3.5-turbo")
            false) ],
     Returned false).
Proof.
  rewrite (validateApiKey_hosted_provider OpenAI.Request OpenAI.Error
             Scenario.error_message
             (openai_adapter (Scenario.adapter_rejecting Scenario.unauthorized))
             "OpenAI" []).
  - reflexivity.
  - left. reflexivity.
Defined.

(** X15: the model of the test request is chosen by the provider name
    as it was typed.  [gemini] and [anthropic] get their own model only
    when written in lower case; written with any capital letter they pass
    the [switch], which lowers the name, and are tested with
    [gpt-3.5-turbo], like [openai]. *)
Theorem validateApiKey_model_of_capitalized_name :
  forall provider : string,
    In (Utils.toLowerCase provider) ["openai"; "anthropic"; "gemini"] ->
    Utils.toLowerCase provider <> provider ->
    Utils.test_model provider = "gpt-3.5-turbo" /\
    Utils.test_model (Utils.toLowerCase provider)
    = match Utils.toLowerCase provider with
      | "gemini" => "gemini-pro"
      | "anthropic" => "claude-3-haiku-20240307"
      | _ => "gpt-3.5-turbo"
      end.
Proof.
  intros provider Hhosted Hcapital. split.
  - unfold Utils.test_model.
    destruct (String.eqb_spec provider "gemini") as [-> |_];
      [now contradiction Hcapital |].
    destruct (String.eqb_spec provider "anthropic") as [-> |_];
      [now contradiction Hcapital |].
    reflexivity.
  - destruct Hhosted as [<- | [<- | [<- | []]]]; reflexivity.
Qed.

(** The theorem at [Gemini]: the request that leaves asks for
    [gpt-3.5-turbo]. *)
Lemma validateApiKey_model_of_capitalized_name_witness :
  Utils.test_model "Gemini" = "gpt-3.5-turbo" /\
  requests_of
    (Utils.validateApiKey Scenario.error_message
       (openai_adapter Demo.adapter) "Gemini")
  = [ OpenAI.ChatRequest
        (OpenAIAdapter.chat_params (Utils.test_request "gpt-3.5-turbo")
           false) ].
Proof.
  split; [| reflexivity].
  apply (proj1 (validateApiKey_model_of_capitalized_name "Gemini"
                  (or_intror (or_intror (or_introl eq_refl)))
                  ltac:(discriminate))).
Defined.

(** X16: the verdict on Ollama.  [validateApiKey] makes one call of
    [chatCompletion] for the model [llama2].  It returns [true] when the
    call returns, and also when it rejects with an error whose message
    holds [model] or [not found], even if that message also reads like an
    authentication failure; otherwise an error is judged as for a hosted
    provider: [false] for an authentication failure, rejected unchanged
    if not. *)
Theorem validateApiKey_ollama :
  forall (R E : Type) (message : E -> option string)
         (adapter : AIAdapter.t (Eff R E)) (provider : string)
         (log : list R),
    Utils.toLowerCase provider = "ollama" ->
    Utils.validateApiKey message adapter provider log
    = match AIAdapter.chatCompletion adapter (Utils.test_request "llama2")
              log with
      | (log', Returned _) => (log', Returned true)
      | (log', Threw error) =>
          if Utils.is_model_error message error
          then (log', Returned true)
          else if Utils.is_auth_error message error
               then (log', Returned false)
               else (log', Threw error)
      end.
Proof.
  intros R E message adapter provider log Hollama.
  unfold Utils.validateApiKey, Utils.try_catch.
  rewrite Hollama. simpl. unfold bind, ret, throw.
  destruct (AIAdapter.chatCompletion adapter
              (Utils.test_request "llama2") log)
    as [log' [result | error]]; [reflexivity |].
  destruct (Utils.is_model_error message error); [reflexivity |].
  destruct (Utils.is_auth_error message error); reflexivity.
Qed.

(** The theorem at an Ollama server that does not have the model. *)
Lemma validateApiKey_ollama_witness :
  Utils.validateApiKey Scenario.error_message
    (openai_adapter (Scenario.adapter_rejecting Scenario.model_missing))
    "Ollama" []
  = ([ OpenAI.ChatRequest
         (OpenAIAdapter.chat_params (Utils.test_request "llama2") false) ],
     Returned true).
Proof.
  rewrite (validateApiKey_ollama OpenAI.Request OpenAI.Error
             Scenario.error_message
             (openai_adapter (Scenario.adapter_rejecting Scenario.model_missing))
             "Ollama" []).
  - reflexivity.
  - reflexivity.
Defined.

(** Errors as [validateApiKey] sorts them: an error of the network is
    rejected with as it came, and the message [Invalid model] is an
    authentication failure for OpenAI and a success for Ollama. *)
Example validateApiKey_examples :
  outcome_of
    (Utils.validateApiKey Scenario.error_message
       (openai_adapter (Scenario.adapter_rejecting Scenario.unreachable))
       "openai")
  = Threw Scenario.unreachable /\
  outcome_of
    (Utils.validateApiKey Scenario.error_message
       (openai_adapter
          (Scenario.adapter_rejecting (OpenAI.ProviderError "Invalid model")))
       "openai")
  = Returned false /\
  outcome_of
    (Utils.validateApiKey Scenario.error_message
       (openai_adapter
          (Scenario.adapter_rejecting (OpenAI.ProviderError "Invalid model")))
       "ollama")
  = Returned true /\
  outcome_of
    (Utils.validateApiKey Scenario.error_message
       (openai_adapter Demo.adapter) "anthropic")
  = Returned true.
Proof. repeat split. Qed.

(** ** [saveApiKeyToEnv] *)

Module EnvFacts.
Import Utils.

(** The function, one step at a time. *)
Lemma replace_line_step (pat repl : string) (b : bool) (s : string) :
  replace_line pat repl b s
  = match (if b then drop_prefix pat s else None) with
    | Some after => Some (repl ++ line_rest after)
    | None =>
        match s with
        | EmptyString => None
        | String a rest =>
            if sep_head s then
              match rest with
              | String b0 (String c0 rest') =>
                  option_map (fun r => String a (String b0 (String c0 r)))
                    (replace_line pat repl true rest')
              | _ => None
              end
            else option_map (String a) (replace_line pat repl (is_eol a) rest)
        end
    end.
Proof.
  destruct s as [|a rest]; [destruct b; reflexivity |].
  cbn [replace_line].
  destruct (if b then drop_prefix pat (String a rest) else None);
    [reflexivity |].
  unfold sep_head.
  destruct (is_eol a) eqn:Heol.
  - destruct rest as [|b0 [|c0 rest']]; try reflexivity.
    assert (Hsep : is_separator a b0 c0 = false).
    { unfold is_separator, is_eol in *.
      destruct (N_of_ascii a =? 226)%N eqn:H226; [| reflexivity].
      apply N.eqb_eq in H226. rewrite H226 in Heol. discriminate Heol. }
    now rewrite Hsep.
  - destruct rest as [|b0 [|c0 rest']]; reflexivity.
Qed.

(** Induction along the steps of the function. *)
Lemma scan_ind (P : string -> Prop) :
  P "" ->
  (forall a rest, sep_head (String a rest) = false -> P rest ->
                  P (String a rest)) ->
  (forall a b c rest, is_separator a b c = true -> P rest ->
                      P (String a (String b (String c rest)))) ->
  forall s, P s.
Proof.
  intros Hnil Hstep Hsep.
  assert (H : forall n s, String.length s <= n -> P s).
  { induction n as [|n IH]; intros s Hlen.
    - destruct s; [exact Hnil | simpl in Hlen; lia].
    - destruct s as [|a rest]; [exact Hnil |].
      destruct (sep_head (String a rest)) eqn:Hhead.
      + destruct rest as [|b [|c rest]]; try discriminate Hhead.
        apply Hsep; [exact Hhead |]. apply IH. simpl in Hlen. lia.
      + apply Hstep; [exact Hhead |]. apply IH. simpl in Hlen. lia. }
  intros s. now apply (H (String.length s)).
Qed.


(** *** Bytes *)

Lemma line_char_not_eol (c : ascii) :
  is_line_char c = true -> is_eol c = false.
Proof.
  unfold is_line_char. intros H. apply andb_true_iff in H as [H _].
  now apply negb_true_iff in H.
Qed.

Lemma line_char_not_226 (c : ascii) :
  is_line_char c = true -> (N_of_ascii c =? 226)%N = false.
Proof.
  unfold is_line_char. intros H. apply andb_true_iff in H as [_ H].
  now apply negb_true_iff in H.
Qed.

Lemma separator_first (a b c : ascii) :
  is_separator a b c = true -> (N_of_ascii a =? 226)%N = true.
Proof.
  unfold is_separator. intros H.
  apply andb_true_iff in H as [H _]. now apply andb_true_iff in H as [H _].
Qed.

Lemma separator_second (a b c : ascii) :
  is_separator a b c = true -> (N_of_ascii b =? 128)%N = true.
Proof.
  unfold is_separator. intros H.
  apply andb_true_iff in H as [H _]. now apply andb_true_iff in H as [_ H].
Qed.

Lemma separator_third (a b c : ascii) :
  is_separator a b c = true ->
  ((N_of_ascii c =? 168) || (N_of_ascii c =? 169))%N = true.
Proof.
  unfold is_separator. intros H. now apply andb_true_iff in H as [_ H].
Qed.

Lemma eol_not_226 (a : ascii) :
  is_eol a = true -> (N_of_ascii a =? 226)%N = false.
Proof.
  unfold is_eol. intros H.
  destruct (N.eqb_spec (N_of_ascii a) 226) as [E|]; [| reflexivity].
  rewrite E in H. discriminate H.
Qed.

Lemma eol_not_128 (a : ascii) :
  is_eol a = true -> (N_of_ascii a =? 128)%N = false.
Proof.
  unfold is_eol. intros H.
  destruct (N.eqb_spec (N_of_ascii a) 128) as [E|]; [| reflexivity].
  rewrite E in H. discriminate H.
Qed.

Lemma newline_is_eol : is_eol (ascii_of_N 10) = true.
Proof. reflexivity. Qed.

(** *** [drop_prefix] *)

Lemma drop_prefix_append (p s : string) : drop_prefix p (p ++ s) = Some s.
Proof.
  induction p as [|a p IH]; simpl; [reflexivity |].
  now rewrite Ascii.eqb_refl.
Qed.

Lemma drop_prefix_some (p s after : string) :
  drop_prefix p s = Some after -> s = p ++ after.
Proof.
  revert s. induction p as [|a p IH]; intros s H; simpl in *.
  - now injection H as ->.
  - destruct s as [|b s]; [discriminate H |].
    destruct (Ascii.eqb_spec a b) as [-> |]; [| discriminate H].
    now rewrite (IH _ H).
Qed.

(** A text that starts with a byte that no line holds does not start
    with a one-line pattern. *)
Lemma drop_prefix_other (p : string) (a : ascii) (s : string) :
  one_line p = true -> p <> "" -> is_line_char a = false ->
  drop_prefix p (String a s) = None.
Proof.
  intros Hline Hne Ha. destruct p as [|p0 p]; [contradiction |].
  simpl in *. apply andb_true_iff in Hline as [Hp0 _].
  destruct (Ascii.eqb_spec p0 a) as [-> |]; [congruence | reflexivity].
Qed.

Lemma eol_not_line_char (a : ascii) :
  is_eol a = true -> is_line_char a = false.
Proof. unfold is_line_char. now intros ->. Qed.

Lemma lead_not_line_char (a : ascii) :
  (N_of_ascii a =? 226)%N = true -> is_line_char a = false.
Proof. unfold is_line_char. intros ->. apply andb_false_r. Qed.


(** *** [line_rest] *)

Lemma sep_head_lead (a : ascii) (s : string) :
  sep_head (String a s) = true -> (N_of_ascii a =? 226)%N = true.
Proof.
  destruct s as [|b [|c s]]; try discriminate. apply separator_first.
Qed.

Lemma sep_head_line_char (a : ascii) (s : string) :
  is_line_char a = true -> sep_head (String a s) = false.
Proof.
  intros Ha. destruct (sep_head (String a s)) eqn:H; [| reflexivity].
  apply sep_head_lead in H. apply line_char_not_226 in Ha. congruence.
Qed.

Lemma line_rest_step (s : string) :
  line_rest s
  = match s with
    | EmptyString => EmptyString
    | String a rest =>
        if is_eol a || sep_head s then s else line_rest rest
    end.
Proof.
  destruct s as [|a rest]; [reflexivity |]. cbn [line_rest].
  destruct (is_eol a); [reflexivity |].
  destruct rest as [|b [|c rest]]; reflexivity.
Qed.

Lemma line_rest_one_line (k t : string) :
  one_line k = true -> line_rest (k ++ t) = line_rest t.
Proof.
  induction k as [|a k IH]; intros Hk; [reflexivity |].
  simpl in Hk. apply andb_true_iff in Hk as [Ha Hk].
  rewrite line_rest_step. cbn [append].
  rewrite (line_char_not_eol _ Ha), (sep_head_line_char _ _ Ha).
  now apply IH.
Qed.

Lemma line_rest_idem (s : string) : line_rest (line_rest s) = line_rest s.
Proof.
  induction s as [|a rest IH]; [reflexivity |].
  rewrite (line_rest_step (String a rest)).
  destruct (is_eol a || sep_head (String a rest)) eqn:H; [| exact IH].
  rewrite line_rest_step. now rewrite H.
Qed.

Lemma line_rest_newline (t : string) :
  line_rest (newline ++ t) = newline ++ t.
Proof. reflexivity. Qed.

(** *** Text appended after lines that do not match *)

Lemma ends_with_newline_cons (a : ascii) (s : string) :
  ends_with_newline (String a s) = true ->
  (s = "" /\ a = ascii_of_N 10) \/ (s <> "" /\ ends_with_newline s = true).
Proof.
  destruct s as [|b s]; simpl.
  - intros H. left. split; [reflexivity |].
    apply N.eqb_eq in H. rewrite <- (ascii_N_embedding a). now rewrite H.
  - intros H. right. split; [discriminate | exact H].
Qed.

Lemma drop_prefix_cons (q : string) (a : ascii) (s s' : string) :
  (forall q', one_line q' = true -> drop_prefix q' s = None ->
              drop_prefix q' s' = None) ->
  one_line q = true ->
  drop_prefix q (String a s) = None ->
  drop_prefix q (String a s') = None.
Proof.
  intros Hrest Hq Hnone. destruct q as [|q0 q]; [discriminate Hnone |].
  simpl in *. apply andb_true_iff in Hq as [_ Hq].
  destruct (Ascii.eqb q0 a); [| reflexivity]. now apply Hrest.
Qed.

Section Pattern.

Variables pat : string.
Hypothesis pat_line : one_line pat = true.
Hypothesis pat_some : pat <> "".

Lemma drop_prefix_joined (q s t : string) :
  one_line q = true ->
  drop_prefix q s = None ->
  ends_with_newline s = true \/ (exists t', t = newline ++ t') ->
  drop_prefix q (s ++ t) = None.
Proof.
  revert s. induction q as [|q0 q IH]; intros s Hq Hnone Hjoin;
    [discriminate Hnone |].
  pose proof Hq as Hall.
  simpl in Hq. apply andb_true_iff in Hq as [Hq0 Hq].
  destruct s as [|a s].
  - destruct Hjoin as [H | [t' ->]]; [discriminate H |].
    apply drop_prefix_other; [exact Hall | discriminate | reflexivity].
  - simpl in *. destruct (Ascii.eqb_spec q0 a) as [<- |]; [| reflexivity].
    apply IH; [exact Hq | exact Hnone |].
    destruct Hjoin as [H | H]; [| now right].
    apply ends_with_newline_cons in H as [[_ E] | [_ H]]; [| now left].
    rewrite E in Hq0. discriminate Hq0.
Qed.

Lemma sep_head_joined (a : ascii) (s t : string) :
  sep_head (String a s) = false ->
  ends_with_newline (String a s) = true \/ (exists t', t = newline ++ t') ->
  sep_head (String a (s ++ t)) = false.
Proof.
  intros Hhead Hjoin.
  destruct s as [|b [|c s]]; [| | exact Hhead].
  - cbn [append].
    destruct (sep_head (String a t)) eqn:H; [| reflexivity].
    pose proof (sep_head_lead _ _ H) as H226.
    destruct Hjoin as [Hnl | [t' ->]].
    + simpl in Hnl. apply N.eqb_eq in Hnl.
      apply N.eqb_eq in H226. congruence.
    + destruct t' as [|c t']; [discriminate H |].
      apply separator_second in H. discriminate H.
  - cbn [append].
    destruct (sep_head (String a (String b t))) eqn:H; [| reflexivity].
    destruct Hjoin as [Hnl | [t' ->]].
    + simpl in Hnl. destruct t as [|c t]; [discriminate H |].
      apply separator_second in H. apply N.eqb_eq in Hnl, H. congruence.
    + apply separator_third in H. discriminate H.
Qed.

Lemma replace_line_newline (repl : string) (b : bool) (t : string) :
  replace_line pat repl b (newline ++ t)
  = option_map (append newline) (replace_line pat repl true t).
Proof.
  change (newline ++ t) with (String (ascii_of_N 10) t).
  assert (Hhead : sep_head (String (ascii_of_N 10) t) = false)
    by (destruct t as [|x [|y t]]; reflexivity).
  rewrite replace_line_step, Hhead.
  replace (if b then drop_prefix pat (String (ascii_of_N 10) t) else None)
    with (@None string).
  - rewrite newline_is_eol. now destruct (replace_line pat repl true t).
  - destruct b; [| reflexivity]. symmetry.
    now apply drop_prefix_other.
Qed.

(** Text put after lines that do not match is searched from the start
    of a line. *)
Lemma replace_line_joined (repl : string) (s : string) :
  forall (b : bool) (t : string),
    replace_line pat repl b s = None ->
    joins s b t ->
    replace_line pat repl b (s ++ t)
    = option_map (append s) (replace_line pat repl true t).
Proof.
  induction s as [| a rest Hhead IH | a b0 c0 rest Hsep IH] using scan_ind;
    intros b t Hnone Hjoin.
  - cbn [append]. destruct Hjoin as [H | [[t' ->] | [_ ->]]].
    + discriminate H.
    + rewrite !replace_line_newline.
      now destruct (replace_line pat repl true t').
    + now destruct (replace_line pat repl true t).
  - assert (Hjoin' :
              ends_with_newline (String a rest) = true \/
              (exists t', t = newline ++ t')).
    { destruct Hjoin as [H | [H | [H _]]]; auto. discriminate H. }
    rewrite replace_line_step in Hnone. rewrite Hhead in Hnone.
    destruct (if b then drop_prefix pat (String a rest) else None) eqn:Hpre;
      [discriminate Hnone |].
    rewrite replace_line_step. cbn [append].
    replace (if b then drop_prefix pat (String a (rest ++ t)) else None)
      with (@None string).
    2:{ destruct b; [| reflexivity]. symmetry.
        now apply (drop_prefix_joined pat (String a rest) t). }
    rewrite (sep_head_joined _ _ _ Hhead Hjoin').
    rewrite IH.
    + now destruct (replace_line pat repl true t).
    + now destruct (replace_line pat repl (is_eol a) rest).
    + destruct Hjoin' as [H | H]; [| right; now left].
      apply ends_with_newline_cons in H as [[-> ->] | [_ H]].
      * right. right. split; reflexivity.
      * now left.
  - rewrite replace_line_step in Hnone. cbn [sep_head] in Hnone.
    rewrite Hsep in Hnone.
    destruct (if b then drop_prefix pat (String a (String b0 (String c0 rest)))
              else None) eqn:Hpre; [discriminate Hnone |].
    rewrite replace_line_step. cbn [append sep_head]. rewrite Hsep.
    replace (if b
             then drop_prefix pat
                    (String a (String b0 (String c0 (rest ++ t))))
             else None)
      with (@None string).
    2:{ destruct b; [| reflexivity]. symmetry.
        apply drop_prefix_other; auto.
        apply lead_not_line_char. eapply separator_first; eassumption. }
    rewrite IH.
    + now destruct (replace_line pat repl true t).
    + now destruct (replace_line pat repl true rest).
    + destruct Hjoin as [H | [H | [H _]]]; [| right; now left | discriminate H].
      destruct rest as [|d rest].
      * right. right. split; reflexivity.
      * left. exact H.
Qed.


Lemma no_prefix_check (b : bool) (s : string) :
  (b = true -> drop_prefix pat s = None) ->
  (if b then drop_prefix pat s else None) = None.
Proof. destruct b; auto. Qed.

Lemma replace_line_empty (repl : string) (b : bool) :
  replace_line pat repl b "" = None.
Proof.
  destruct pat; [contradiction |]. destruct b; reflexivity.
Qed.

(** Whether a line matches does not depend on the replacement. *)
Lemma replace_line_none (r1 r2 : string) (s : string) :
  forall b : bool,
    replace_line pat r1 b s = None -> replace_line pat r2 b s = None.
Proof.
  induction s as [| a rest Hhead IH | a b0 c0 rest Hsep IH] using scan_ind;
    intros b Hnone.
  - apply replace_line_empty.
  - rewrite replace_line_step in *. rewrite Hhead in *.
    destruct (if b then drop_prefix pat (String a rest) else None);
      [discriminate Hnone |].
    destruct (replace_line pat r1 (is_eol a) rest) eqn:H1;
      [discriminate Hnone |].
    now rewrite (IH _ H1).
  - rewrite replace_line_step in *. cbn [sep_head] in *. rewrite Hsep in *.
    destruct (if b then drop_prefix pat (String a (String b0 (String c0 rest)))
              else None); [discriminate Hnone |].
    destruct (replace_line pat r1 true rest) eqn:H1; [discriminate Hnone |].
    now rewrite (IH _ H1).
Qed.

(** Replacing in a text in which the line has been replaced already is
    replacing in the text as it was. *)
Lemma replace_line_again (k1 r2 : string) (s : string) :
  one_line k1 = true ->
  forall (b : bool) (s1 : string),
    replace_line pat (pat ++ k1) b s = Some s1 ->
    replace_line pat r2 b s1 = replace_line pat r2 b s /\
    (exists a t t1, s = String a t /\ s1 = String a t1) /\
    (b = false ->
     (forall q, one_line q = true -> drop_prefix q s = None ->
                drop_prefix q s1 = None) /\
     (forall x, sep_head (String x s1) = sep_head (String x s))).
Proof.
  intros Hk1.
  induction s as [| a rest Hhead IH | a b0 c0 rest Hsep IH] using scan_ind;
    intros b s1 Hsome.
  - rewrite replace_line_empty in Hsome. discriminate Hsome.
  - rewrite replace_line_step in Hsome. rewrite Hhead in Hsome.
    destruct (if b then drop_prefix pat (String a rest) else None)
      as [after|] eqn:Hpre.
    + destruct b; [| discriminate Hpre].
      injection Hsome as <-.
      pose proof (drop_prefix_some _ _ _ Hpre) as Hs.
      split; [| split; [| discriminate]].
      * rewrite (replace_line_step pat r2 true (String a rest)), Hpre.
        rewrite replace_line_step, append_assoc, drop_prefix_append.
        now rewrite line_rest_one_line, line_rest_idem.
      * destruct pat as [|p0 pat']; [contradiction |].
        simpl in Hs. injection Hs as -> ->.
        do 3 eexists. split; reflexivity.
    + destruct (replace_line pat (pat ++ k1) (is_eol a) rest) as [r'|] eqn:Hr;
        [| discriminate Hsome].
      injection Hsome as <-.
      destruct (IH _ _ Hr) as (Hagain & (c & t & t1 & -> & ->) & Hfalse).
      assert (Hhead' : sep_head (String a (String c t1)) = false).
      { destruct (is_eol a) eqn:Heol.
        - destruct (sep_head (String a (String c t1))) eqn:H; [| reflexivity].
          apply sep_head_lead in H. apply eol_not_226 in Heol. congruence.
        - destruct (Hfalse eq_refl) as [_ H]. now rewrite H. }
      assert (Hpre' : (if b then drop_prefix pat (String a (String c t1))
                       else None) = None).
      { apply no_prefix_check. intros ->.
        destruct (is_eol a) eqn:Heol.
        - apply drop_prefix_other; auto. now apply eol_not_line_char.
        - destruct (Hfalse eq_refl) as [H _].
          now apply (drop_prefix_cons pat a (String c t)). }
      split; [| split; [| intros ->; split]].
      * rewrite (replace_line_step pat r2 b (String a (String c t1))).
        rewrite Hpre', Hhead', Hagain.
        rewrite (replace_line_step pat r2 b (String a (String c t))).
        now rewrite Hpre, Hhead.
      * do 3 eexists. split; reflexivity.
      * intros q Hq Hnone.
        destruct (is_eol a) eqn:Heol.
        -- destruct q as [|q0 q]; [discriminate Hnone |].
           apply drop_prefix_other; [exact Hq | discriminate |].
           now apply eol_not_line_char.
        -- destruct (Hfalse eq_refl) as [Hdrop _].
           now apply (drop_prefix_cons q a (String c t)).
      * intros x. reflexivity.
  - assert (Hlead : is_line_char a = false).
    { apply lead_not_line_char. eapply separator_first; eassumption. }
    rewrite replace_line_step in Hsome. cbn [sep_head] in Hsome.
    rewrite Hsep in Hsome.
    rewrite no_prefix_check in Hsome
      by (intros _; now apply drop_prefix_other).
    destruct (replace_line pat (pat ++ k1) true rest) as [r'|] eqn:Hr;
      [| discriminate Hsome].
    injection Hsome as <-.
    destruct (IH _ _ Hr) as (Hagain & _ & _).
    split; [| split; [| intros _; split]].
    + rewrite !(replace_line_step pat r2 b (String a _)).
      cbn [sep_head]. rewrite Hsep.
      rewrite !no_prefix_check by (intros _; now apply drop_prefix_other).
      now rewrite Hagain.
    + do 3 eexists. split; reflexivity.
    + intros q Hq Hnone. destruct q as [|q0 q]; [discriminate Hnone |].
      apply drop_prefix_other; [exact Hq | discriminate | exact Hlead].
    + intros x. reflexivity.
Qed.

End Pattern.


(** *** The pattern of a variable *)

Lemma word_char_line_char (c : ascii) :
  is_word_char c = true -> is_line_char c = true.
Proof.
  destruct c as [[] [] [] [] [] [] [] []]; intros H;
    (reflexivity || discriminate H).
Qed.

Lemma one_line_append (a b : string) :
  one_line a = true -> one_line b = true -> one_line (a ++ b) = true.
Proof.
  unfold one_line. induction a as [|c a IH]; simpl; [auto |].
  intros Ha Hb. apply andb_true_iff in Ha as [Hc Ha].
  rewrite Hc. now apply IH.
Qed.

Lemma pattern_one_line (name : string) :
  all_chars is_word_char name = true -> one_line (name ++ "=") = true.
Proof.
  intros Hname. apply one_line_append; [| reflexivity].
  unfold one_line. induction name as [|c name IH]; simpl in *; [reflexivity |].
  apply andb_true_iff in Hname as [Hc Hname].
  now rewrite (word_char_line_char _ Hc), IH.
Qed.

Lemma pattern_not_empty (name : string) : name ++ "=" <> "".
Proof. destruct name; discriminate. Qed.

Lemma sets_none (name repl s : string) :
  all_chars is_word_char name = true ->
  sets name s = false ->
  replace_line (name ++ "=") repl true s = None.
Proof.
  intros Hname Hsets. unfold sets in Hsets.
  destruct (replace_line (name ++ "=") "" true s) eqn:H; [discriminate |].
  eapply replace_line_none; eauto using pattern_one_line, pattern_not_empty.
Qed.

(** The first line that starts with the pattern is the one replaced. *)
Lemma replace_line_match (pat repl after : string) :
  replace_line pat repl true (pat ++ after) = Some (repl ++ line_rest after).
Proof. now rewrite replace_line_step, drop_prefix_append. Qed.

Lemma updated_content_pattern (name key content : string) :
  updated_content name key content = updated (name ++ "=") key content.
Proof.
  unfold updated_content, updated. cbv zeta.
  now rewrite <- !(append_assoc name "=").
Qed.

(** After a value has been saved, the line of the variable is there,
    and replacing it gives what saving at once would have given. *)
Lemma replace_line_updated (pat k1 k2 content : string) :
  one_line pat = true -> pat <> "" -> one_line k1 = true ->
  replace_line pat (pat ++ k2) true (updated pat k1 content)
  = Some (updated pat k2 content).
Proof.
  intros Hline Hsome Hk1. unfold updated.
  destruct (replace_line pat (pat ++ k1) true content) as [s1|] eqn:H1.
  - destruct (replace_line_again _ Hline Hsome k1 (pat ++ k2)
                content Hk1 true s1 H1) as [Hagain _].
    rewrite Hagain.
    destruct (replace_line pat (pat ++ k2) true content) eqn:H2;
      [reflexivity |].
    apply (replace_line_none _ Hline Hsome _ (pat ++ k1)) in H2.
    congruence.
  - pose proof (replace_line_none _ Hline Hsome _ (pat ++ k2) _ _ H1) as H2.
    rewrite H2.
    destruct (JS.truthy content && negb (ends_with_newline content)) eqn:Hend.
    + rewrite !(append_assoc content).
      rewrite (replace_line_joined _ Hline Hsome _ content true _ H2)
        by (right; left; eexists; reflexivity).
      rewrite replace_line_newline by assumption.
      rewrite (append_assoc pat k1 newline).
      rewrite replace_line_match, line_rest_one_line by assumption.
      cbn [option_map line_rest]. now rewrite !append_assoc.
    + rewrite (replace_line_joined _ Hline Hsome _ content true _ H2).
      * rewrite (append_assoc pat k1 newline).
        rewrite replace_line_match, line_rest_one_line by assumption.
        reflexivity.
      * destruct content as [|c content]; [right; right; now split |].
        left. cbn [JS.truthy andb] in Hend.
        now apply negb_false_iff in Hend.
Qed.

(** Saving a value after another one is saving it at once. *)
Lemma updated_again (pat k1 k2 content : string) :
  one_line pat = true -> pat <> "" -> one_line k1 = true ->
  updated pat k2 (updated pat k1 content) = updated pat k2 content.
Proof.
  intros Hline Hsome Hk1. unfold updated at 1.
  now rewrite replace_line_updated.
Qed.

Lemma updated_sets (name k1 content : string) :
  all_chars is_word_char name = true -> one_line k1 = true ->
  sets name (updated_content name k1 content) = true.
Proof.
  intros Hname Hk1. unfold sets.
  destruct (replace_line (name ++ "=") "" true
              (updated_content name k1 content)) eqn:H; [reflexivity |].
  apply (replace_line_none _ (pattern_one_line _ Hname)
           (pattern_not_empty name) _ ((name ++ "=") ++ k1)) in H.
  rewrite updated_content_pattern in H.
  rewrite replace_line_updated in H;
    auto using pattern_one_line, pattern_not_empty.
  discriminate H.
Qed.

Lemma line_rest_after (old after : string) :
  one_line old = true ->
  after = "" \/ (exists rest, after = newline ++ rest) ->
  line_rest (old ++ after) = after.
Proof.
  intros Hold Hafter. rewrite line_rest_one_line by assumption.
  destruct Hafter as [-> | [rest ->]]; reflexivity.
Qed.

End EnvFacts.

(** X17: the first save, and a save that cannot be written.  When there
    is no [.env] file, saving a variable whose name is made of letters,
    digits and underscores creates the file with the single line
    [NAME=key], ended by a line feed, and returns [true].  When the file
    cannot be written, the function returns [false] and the file system
    is as it was. *)
Theorem saveApiKeyToEnv_new_file :
  forall envVarName apiKey : string,
    Utils.all_chars Utils.is_word_char envVarName = true ->
    Utils.all_chars Utils.no_dollar apiKey = true ->
    Utils.saveApiKeyToEnv envVarName apiKey
      {| Utils.env_file := None; Utils.writable := true |}
    = Some ({| Utils.env_file :=
                 Some (envVarName ++ "=" ++ apiKey ++ Utils.newline);
               Utils.writable := true |}, true) /\
    forall fs,
      Utils.writable fs = false ->
      Utils.saveApiKeyToEnv envVarName apiKey fs = Some (fs, false).
Proof.
  intros name key Hname Hkey. unfold Utils.saveApiKeyToEnv.
  rewrite Hname, Hkey. cbn [andb]. split.
  - cbn [Utils.env_file Utils.writable].
    rewrite EnvFacts.updated_content_pattern. unfold Utils.updated.
    rewrite (EnvFacts.replace_line_empty _ (EnvFacts.pattern_one_line _ Hname)
               (EnvFacts.pattern_not_empty name)).
    cbn [JS.truthy andb append]. now rewrite !append_assoc.
  - intros fs Hfs. now rewrite Hfs.
Qed.

(** The theorem at the key of OpenAI and no file. *)
Lemma saveApiKeyToEnv_new_file_witness :
  Utils.saveApiKeyToEnv "OPENAI_API_KEY" "sk-new" Scenario.env_without_file
  = Some ({| Utils.env_file :=
               Some ("OPENAI_API_KEY" ++ "=" ++ "sk-new" ++ Utils.newline);
             Utils.writable := true |}, true).
Proof.
  apply (proj1 (saveApiKeyToEnv_new_file "OPENAI_API_KEY" "sk-new"
                  eq_refl eq_refl)).
Defined.

(** X18: a variable that the file sets is updated where it is.  When
    the file and the key are ASCII text, so that the bytes of the file
    are the text read from it and written to it, and the file holds a
    line [NAME=old], no line before it starts with
    [NAME=], and that line is the first of the file or follows a line
    feed, saving replaces [old] by the new key on that line and leaves
    every other byte of the file as it was: nothing is appended, and the
    lines before and after are kept. *)
Theorem saveApiKeyToEnv_updates_in_place :
  forall (envVarName apiKey old before after : string)
         (fs : Utils.FileSystem),
    Utils.all_chars Utils.is_word_char envVarName = true ->
    Utils.all_chars Utils.no_dollar apiKey = true ->
    Utils.one_line old = true ->
    Utils.writable fs = true ->
    Utils.env_file fs
    = Some (before ++ envVarName ++ "=" ++ old ++ after) ->
    Utils.ascii_text (before ++ envVarName ++ "=" ++ old ++ after) = true ->
    Utils.ascii_text apiKey = true ->
    before = "" \/ Utils.ends_with_newline before = true ->
    Utils.sets envVarName before = false ->
    after = "" \/ (exists rest, after = Utils.newline ++ rest) ->
    Utils.saveApiKeyToEnv envVarName apiKey fs
    = Some ({| Utils.env_file :=
                 Some (before ++ envVarName ++ "=" ++ apiKey ++ after);
               Utils.writable := true |}, true).
Proof.
  intros name key old before after fs Hname Hkey Hold Hw Hfile _ _ Hbefore
    Hsets Hafter.
  unfold Utils.saveApiKeyToEnv. rewrite Hname, Hkey, Hfile, Hw. cbn [andb].
  do 3 f_equal.
  rewrite EnvFacts.updated_content_pattern. unfold Utils.updated.
  pose proof (EnvFacts.pattern_one_line _ Hname) as Hline.
  pose proof (EnvFacts.pattern_not_empty name) as Hsome.
  rewrite <- !(append_assoc name "=").
  rewrite (EnvFacts.replace_line_joined _ Hline Hsome).
  - rewrite EnvFacts.replace_line_match.
    rewrite (EnvFacts.line_rest_after _ _ Hold Hafter).
    cbn [option_map]. now rewrite !append_assoc.
  - now apply EnvFacts.sets_none.
  - destruct Hbefore as [-> | H]; [right; right; now split | now left].
Qed.

(** The theorem at a file that sets the key between a comment and
    another variable. *)
Lemma saveApiKeyToEnv_updates_in_place_witness :
  Utils.saveApiKeyToEnv "OPENAI_API_KEY" "sk-new" Scenario.env_with_file
  = Some ({| Utils.env_file :=
               Some (("# keys" ++ Utils.newline) ++ "OPENAI_API_KEY" ++ "=" ++
                     "sk-new" ++ (Utils.newline ++ "DEBUG=1" ++ Utils.newline));
             Utils.writable := true |}, true).
Proof.
  apply (saveApiKeyToEnv_updates_in_place "OPENAI_API_KEY" "sk-new" "sk-old"
           ("# keys" ++ Utils.newline)
           (Utils.newline ++ "DEBUG=1" ++ Utils.newline)
           Scenario.env_with_file);
    try reflexivity.
  - right. reflexivity.
  - right. eexists. reflexivity.
Defined.

(** X19: the last save wins, and saving twice is saving once.  For a
    key that holds no line terminator, saving it and then saving a second
    key leaves the file system as saving the second key at once does;
    saving the same key again changes nothing; and after a save the file
    has a line that sets the variable. *)
Theorem saveApiKeyToEnv_last_save_wins :
  forall (envVarName first second : string) (fs : Utils.FileSystem),
    Utils.all_chars Utils.is_word_char envVarName = true ->
    Utils.all_chars Utils.no_dollar first = true ->
    Utils.all_chars Utils.no_dollar second = true ->
    Utils.one_line first = true ->
    Utils.writable fs = true ->
    exists saved,
      Utils.saveApiKeyToEnv envVarName first fs = Some (saved, true) /\
      Utils.saveApiKeyToEnv envVarName second saved
      = Utils.saveApiKeyToEnv envVarName second fs /\
      Utils.saveApiKeyToEnv envVarName first saved = Some (saved, true) /\
      Utils.sets envVarName
        (match Utils.env_file saved with Some text => text | None => "" end)
      = true.
Proof.
  intros name k1 k2 fs Hname Hk1 Hk2 Hline1 Hw.
  pose proof (EnvFacts.pattern_one_line _ Hname) as Hline.
  pose proof (EnvFacts.pattern_not_empty name) as Hsome.
  assert (Hagain : forall k content,
             Utils.updated_content name k
               (Utils.updated_content name k1 content)
             = Utils.updated_content name k content).
  { intros k content. rewrite !EnvFacts.updated_content_pattern.
    now apply EnvFacts.updated_again. }
  unfold Utils.saveApiKeyToEnv. rewrite Hname, Hk1, Hk2, Hw. cbn [andb].
  eexists. split; [reflexivity |].
  cbn [Utils.env_file Utils.writable]. rewrite !Hagain.
  repeat split. now apply EnvFacts.updated_sets.
Qed.

(** The theorem at two keys saved one after the other into the file of
    the example. *)
Lemma saveApiKeyToEnv_last_save_wins_witness :
  exists saved,
    Utils.saveApiKeyToEnv "OPENAI_API_KEY" "sk-one" Scenario.env_with_file
    = Some (saved, true) /\
    Utils.saveApiKeyToEnv "OPENAI_API_KEY" "sk-two" saved
    = Utils.saveApiKeyToEnv "OPENAI_API_KEY" "sk-two" Scenario.env_with_file.
Proof.
  destruct (saveApiKeyToEnv_last_save_wins "OPENAI_API_KEY" "sk-one" "sk-two"
              Scenario.env_with_file eq_refl eq_refl eq_refl eq_refl eq_refl)
    as [saved (Hfirst & Hsecond & _)].
  exists saved. split; assumption.
Defined.

(** A variable that the file does not set is appended, after a line feed
    when the file does not end with one; a key that holds a line feed is
    not saved twice to the same effect; and a name or a key outside the
    calls covered is answered by [None]. *)
Example saveApiKeyToEnv_examples :
  Utils.updated_content "GEMINI_KEY" "g-1" "DEBUG=1"
  = "DEBUG=1" ++ Utils.newline ++ "GEMINI_KEY=g-1" ++ Utils.newline /\
  Utils.updated_content "KEY" "new" ("MYKEY=1" ++ Utils.newline ++ "KEY=old")
  = "MYKEY=1" ++ Utils.newline ++ "KEY=new" /\
  Utils.updated_content "K" ("a" ++ Utils.newline ++ "b")
    (Utils.updated_content "K" ("a" ++ Utils.newline ++ "b") "")
  <> Utils.updated_content "K" ("a" ++ Utils.newline ++ "b") "" /\
  Utils.saveApiKeyToEnv "MY.KEY" "v" Scenario.env_without_file = None /\
  Utils.saveApiKeyToEnv "KEY" "pa$$" Scenario.env_without_file = None.
Proof.
  repeat split; try reflexivity.
  intros H. discriminate H.
Qed.
